(** * Incident-Scribe: the data aggregation script

    A shallow embedding of [kestra/scripts/aggregate_data.py] and the
    properties of its aggregated report.

    The script reads one incident record (a JSON document), optionally
    reads a historical incident store from a fixed path, and prints a
    merged report.  The embedding keeps the dynamic typing of the
    source: every Python value the script can see comes out of
    [json.load], so values are JSON trees, dictionary access can raise
    [AttributeError], [len] and slicing can raise [TypeError], and the
    one [try]/[except] of the source is a handler in a small state and
    exception monad. *)

From Stdlib Require Import ZArith SpecFloat.
From stdpp Require Import gmap strings list fin_maps.

Local Open Scope string_scope.
Set Warnings "-register-all".

(** ** JSON values, as [json.load] builds them *)

(** - [null] is [None], [true]/[false] are [bool];
    - a number without fraction or exponent is an unbounded [int];
    - any other number, and the constants [NaN], [Infinity] and
      [-Infinity] that [json.load] accepts, is a binary64 [float]
      (the [spec_float] values that are valid binary64 numbers);
    - a string is a [str] (one [ascii] of the model stands for one
      character);
    - an array is a [list], an object is a [dict] with [str] keys. *)
Inductive json :=
  | JNull
  | JBool (b : bool)
  | JInt (n : Z)
  | JFloat (f : spec_float)
  | JStr (s : string)
  | JList (l : list json)
  | JDict (m : gmap string json).

(** [type(v).__name__], as it appears in interpreter error messages. *)
Definition type_name (v : json) : string :=
  match v with
  | JNull => "NoneType"
  | JBool _ => "bool"
  | JInt _ => "int"
  | JFloat _ => "float"
  | JStr _ => "str"
  | JList _ => "list"
  | JDict _ => "dict"
  end.

Definition is_dict (v : json) : bool :=
  match v with JDict _ => true | _ => false end.

(** ** Python's [==] on JSON values *)

Definition Z_of_bool (b : bool) : Z := if b then 1%Z else 0%Z.

(** [int == float] compares the exact mathematical values. *)
Definition int_eq_float (n : Z) (f : spec_float) : bool :=
  match f with
  | S754_zero _ => (n =? 0)%Z
  | S754_infinity _ | S754_nan => false
  | S754_finite s m e =>
      let sm := if s then Z.neg m else Z.pos m in
      if (0 <=? e)%Z then (n =? sm * 2 ^ e)%Z
      else (n * 2 ^ (- e) =? sm)%Z
  end.

Definition is_nan (v : json) : bool :=
  match v with JFloat S754_nan => true | _ => false end.

(** [a == b].  Numbers compare by value across [bool], [int] and
    [float]; [NaN] is unequal to everything, itself included.  Inside a
    list or a dict, CPython compares elements with an identity test
    first ([x is y or x == y]); every [NaN] that [json.load] returns is
    the single object [json.decoder.NaN], so two [NaN] elements count
    as equal there.  Identity makes no difference for any other JSON
    value, for which [x is y] implies [x == y]. *)
Fixpoint py_eq (a b : json) {struct a} : bool :=
  match a, b with
  | JNull, JNull => true
  | JBool x, JBool y => (Z_of_bool x =? Z_of_bool y)%Z
  | JBool x, JInt n | JInt n, JBool x => (Z_of_bool x =? n)%Z
  | JBool x, JFloat f | JFloat f, JBool x => int_eq_float (Z_of_bool x) f
  | JInt n, JInt k => (n =? k)%Z
  | JInt n, JFloat f | JFloat f, JInt n => int_eq_float n f
  | JFloat f, JFloat g => SFeqb f g
  | JStr s, JStr t => String.eqb s t
  | JList xs, JList ys =>
      (fix elems (xs ys : list json) {struct xs} : bool :=
         match xs, ys with
         | [], [] => true
         | x :: xs', y :: ys' =>
             (is_nan x && is_nan y || py_eq x y) && elems xs' ys'
         | _, _ => false
         end) xs ys
  | JDict m, JDict m' =>
      (size m =? size m')%nat &&
      map_fold (fun k v acc =>
                  acc && match m' !! k with
                         | Some v' => is_nan v && is_nan v' || py_eq v v'
                         | None => false
                         end) true m
  | _, _ => false
  end.

(** ** Exceptions, the environment and the process state *)

Inductive exn_class :=
  | FileNotFoundError
  | OSError
  | JSONDecodeError
  | UnicodeDecodeError
  | AttributeError
  | TypeError.

(** An exception object: its class and [str(e)]. *)
Record exn := Exn { exn_class_of : exn_class; exn_msg : string }.

Definition attribute_error (v : json) (attr : string) : exn :=
  Exn AttributeError
      ("'" ++ type_name v ++ "' object has no attribute '" ++ attr ++ "'").

Definition not_iterable (v : json) : exn :=
  Exn TypeError ("'" ++ type_name v ++ "' object is not iterable").

Definition no_len (v : json) : exn :=
  Exn TypeError ("object of type '" ++ type_name v ++ "' has no len()").

Definition not_subscriptable (v : json) : exn :=
  Exn TypeError ("'" ++ type_name v ++ "' object is not subscriptable").

(** [d[:3]] on a dict: the slice is used as a key.  (CPython before
    3.12 reports it as below; later versions raise [KeyError] for the
    missing key instead.  Nothing in the script tells them apart.) *)
Definition dict_slice_error : exn :=
  Exn TypeError "unhashable type: 'slice'".

(** What [json.load] does on an open stream: it raises ([OSError] while
    reading, [UnicodeDecodeError], [JSONDecodeError]) or returns the
    parsed document. *)
Inductive load_result :=
  | Raises (e : exn)
  | Loads (v : json).

(** A path of the file system.  [Absent]: [os.path.exists] is [False]
    and [open] raises [FileNotFoundError].  [Exists r]: the path exists;
    [r] is the outcome of [with open(path) as f: json.load(f)], which
    covers a failing [open] of an existing path. *)
Inductive file_state :=
  | Absent
  | Exists (r : load_result).

(** What the process is started with; the script only reads it. *)
Record env := Env {
  argv : list string;
  fs : string → file_state;
  stdin : load_result
}.

Definition loc := positive.

(** What the process changes: the objects that names of the script are
    bound to, and the lines written to the two output streams.  A
    document on [stdout] stands for its [json.dumps(_, indent=2)]
    text. *)
Record state := State {
  heap : gmap loc json;
  stdout : list json;
  stderr : list string
}.

Definition init_state : state := State ∅ [] [].

(** ** The monad of the script: state and exceptions *)

(** [Stuck] is the embedding's own failure (a reference to no object);
    it is not a Python exception and no handler catches it. *)
Inductive result (A : Type) :=
  | Ok (a : A)
  | Raise (e : exn)
  | Stuck.
Arguments Ok {A} a.
Arguments Raise {A} e.
Arguments Stuck {A}.

Definition M (A : Type) : Type := state → result A * state.

Definition ret {A} (a : A) : M A := λ σ, (Ok a, σ).

Definition bind {A B} (c : M A) (k : A → M B) : M B :=
  λ σ, match c σ with
       | (Ok a, σ') => k a σ'
       | (Raise e, σ') => (Raise e, σ')
       | (Stuck, σ') => (Stuck, σ')
       end.

Definition raise {A} (e : exn) : M A := λ σ, (Raise e, σ).

(** [try: body / except Exception as e: handler e].  Every class of
    [exn_class] derives from [Exception]. *)
Definition try_except {A} (body : M A) (handler : exn → M A) : M A :=
  λ σ, match body σ with
       | (Raise e, σ') => handler e σ'
       | other => other
       end.

Notation "'let*' x ':=' c 'in' k" := (bind c (λ x, k))
  (at level 10, x name, c at level 100, k at level 200,
   format "'let*'  x  :=  c  'in' '//' k").

(** ** Primitive operations of the interpreter and the library *)

Definition deref (l : loc) : M json :=
  λ σ, match heap σ !! l with
       | Some v => (Ok v, σ)
       | None => (Stuck, σ)
       end.

(** Binding a name to a freshly built object. *)
Definition alloc (v : json) : M loc :=
  λ σ, let l := fresh (dom (heap σ)) in
       (Ok l, State (<[l := v]> (heap σ)) (stdout σ) (stderr σ)).

(** [print(line, file=sys.stderr)] *)
Definition print_stderr (line : string) : M unit :=
  λ σ, (Ok tt, State (heap σ) (stdout σ) (stderr σ ++ [line])).

(** [print(json.dumps(v, indent=2))] *)
Definition print_stdout (v : json) : M unit :=
  λ σ, (Ok tt, State (heap σ) (stdout σ ++ [v]) (stderr σ)).

Definition json_load (r : load_result) : M json :=
  match r with
  | Raises e => raise e
  | Loads v => ret v
  end.

(** [with open(path, 'r') as f: json.load(f)] *)
Definition open_and_load (f : file_state) (path : string) : M json :=
  match f with
  | Absent =>
      raise (Exn FileNotFoundError
                 ("[Errno 2] No such file or directory: '" ++ path ++ "'"))
  | Exists r => json_load r
  end.

(** [v.get(key, dflt)]; only a dict has the method. *)
Definition dict_get (v : json) (key : string) (dflt : json) : M json :=
  match v with
  | JDict m => ret (default dflt (m !! key))
  | _ => raise (attribute_error v "get")
  end.

(** [name.get(key, dflt)] for a name of the script. *)
Definition obj_get (l : loc) (key : string) (dflt : json) : M json :=
  let* v := deref l in dict_get v key dflt.

(** [len(v)] *)
Definition py_len (v : json) : M json :=
  match v with
  | JList l => ret (JInt (Z.of_nat (length l)))
  | JStr s => ret (JInt (Z.of_nat (String.length s)))
  | JDict m => ret (JInt (Z.of_nat (size m)))
  | _ => raise (no_len v)
  end.

(** [v[:3]] *)
Definition py_slice3 (v : json) : M json :=
  match v with
  | JList l => ret (JList (take 3 l))
  | JStr s => ret (JStr (String.substring 0 3 s))
  | JDict _ => raise dict_slice_error
  | _ => raise (not_subscriptable v)
  end.

Fixpoint chars (s : string) : list json :=
  match s with
  | EmptyString => []
  | String c s' => JStr (String c EmptyString) :: chars s'
  end.

(** [iter(v)], run to the end: a list gives its elements, a dict its
    keys, a str its characters. *)
Definition py_iter (v : json) : M (list json) :=
  match v with
  | JList l => ret l
  | JDict m => ret (JStr <$> (map_to_list m).*1)
  | JStr s => ret (chars s)
  | _ => raise (not_iterable v)
  end.

(** ** The script *)

Definition historical_path : string := "/app/data/mock-incidents.json".

(** The line of the [except] branch:
    [f"Warning: Could not load historical incidents: {e}"]. *)
Definition warning (e : exn) : string :=
  "Warning: Could not load historical incidents: " ++ exn_msg e.

(** The list comprehension of [aggregate_incident_data], before its
    [[:3]] slice:
    [[inc for inc in all_incidents
      if inc.get('service') == service
         and inc.get('id') != incident_data.get('id')]].
    The [and] evaluates its right operand only when the left one is
    true, and the whole list is built before it is sliced. *)
Fixpoint comprehension (incident_data : loc) (service : json)
    (all_incidents : list json) : M (list json) :=
  match all_incidents with
  | [] => ret []
  | inc :: rest =>
      let* inc_service := dict_get inc "service" JNull in
      let* keep :=
        (if py_eq inc_service service then
           let* inc_id := dict_get inc "id" JNull in
           let* id := obj_get incident_data "id" JNull in
           ret (negb (py_eq inc_id id))
         else ret false) in
      let* selected := comprehension incident_data service rest in
      ret (if keep then inc :: selected else selected)
  end.

(** Lines 20-35 of [aggregate_incident_data]: the value of the local
    [historical_incidents] when the report is built.  It stays [[]]
    when the store does not exist, and when anything in the [try]
    block raises. *)
Definition historical_incidents (w : env) (incident_data : loc)
    : M (list json) :=
  match fs w historical_path with
  | Absent => ret []
  | Exists f =>
      try_except
        (let* all_incidents := json_load f in
         let* service := obj_get incident_data "service" (JStr "") in
         let* elements := py_iter all_incidents in
         let* selected := comprehension incident_data service elements in
         ret (take 3 selected))
        (λ e, let* _ := print_stderr (warning e) in ret [])
  end.

(** The dict display bound to [aggregated] (lines 38-67), over the
    values of its expressions. *)
Definition aggregated
    (current_incident logs_count logs_sample metrics context
     historical_count historical_list log_entries metric_points
     similar_incidents aggregation_timestamp : json) : json :=
  JDict {[
    "current_incident" := current_incident;
    "data_sources" := JDict {[
      "logs" := JDict {[
        "source" := JStr "current_incident";
        "count" := logs_count;
        "sample" := logs_sample ]};
      "metrics" := JDict {[
        "source" := JStr "monitoring_system";
        "data" := metrics ]};
      "context" := JDict {[
        "source" := JStr "service_registry";
        "data" := context ]};
      "historical_patterns" := JDict {[
        "source" := JStr "incident_database";
        "count" := historical_count;
        "incidents" := historical_list ]} ]};
    "aggregation_summary" := JDict {[
      "total_sources" := JInt 4;
      "log_entries" := log_entries;
      "metric_points" := metric_points;
      "similar_incidents" := similar_incidents;
      "aggregation_timestamp" := aggregation_timestamp ]} ]}.

(** [aggregate_incident_data(incident_data)].  The name
    [incident_data] is bound to an object of the heap; the report is a
    new dict, whose entries are evaluated in the order of the
    display. *)
Definition aggregate_incident_data (w : env) (incident_data : loc) : M json :=
  let* historical := historical_incidents w incident_data in
  let* current_incident := deref incident_data in
  let* logs := obj_get incident_data "logs" (JList []) in
  let* logs_count := py_len logs in
  let* logs' := obj_get incident_data "logs" (JList []) in
  let* logs_sample := py_slice3 logs' in
  let* metrics := obj_get incident_data "metrics" (JDict ∅) in
  let* context := obj_get incident_data "context" (JDict ∅) in
  let historical_count := JInt (Z.of_nat (length historical)) in
  let* logs'' := obj_get incident_data "logs" (JList []) in
  let* log_entries := py_len logs'' in
  let* metrics' := obj_get incident_data "metrics" (JDict ∅) in
  let* metric_points := py_len metrics' in
  let similar_incidents := JInt (Z.of_nat (length historical)) in
  let* aggregation_timestamp := obj_get incident_data "timestamp" (JStr "") in
  ret (aggregated current_incident logs_count logs_sample metrics context
         historical_count (JList historical) log_entries metric_points
         similar_incidents aggregation_timestamp).

(** The [__main__] block: the incident is read from the file named by
    the first argument, or from standard input when there is none. *)
Definition main (w : env) : M unit :=
  let* incident_data :=
    (match argv w with
     | _ :: path :: _ =>
         let* v := open_and_load (fs w path) path in alloc v
     | _ =>
         let* v := json_load (stdin w) in alloc v
     end) in
  let* aggregated := aggregate_incident_data w incident_data in
  print_stdout aggregated.

(** An uncaught exception ends the interpreter with status 1. *)
Definition exit_status {A} (r : result A) : Z :=
  match r with
  | Ok _ => 0
  | _ => 1
  end.

(** One run of the process. *)
Definition run (w : env) : result unit * state := main w init_state.

(** ** Reading a report *)

Definition field (k : string) (v : json) : option json :=
  match v with
  | JDict m => m !! k
  | _ => None
  end.

(** [v[k1][k2]...] *)
Fixpoint path (ks : list string) (v : json) : option json :=
  match ks with
  | [] => Some v
  | k :: ks' =>
      match field k v with
      | Some v' => path ks' v'
      | None => None
      end
  end.

(** ** The inputs the script is written for *)

Definition is_str (v : json) : bool :=
  match v with JStr _ => true | _ => false end.

Definition is_list (v : json) : bool :=
  match v with JList _ => true | _ => false end.

Definition optional (p : json → bool) (o : option json) : bool :=
  match o with
  | Some v => p v
  | None => true
  end.

(** An incident record: a mapping whose fields [id], [service] and
    [timestamp] are strings, [logs] a sequence, [metrics] and [context]
    mappings, each of them optional.  The script checks none of this;
    it is the shape of input its lookups with defaults expect. *)
Definition incident_record (v : json) : bool :=
  match v with
  | JDict m =>
      optional is_str (m !! "id") && optional is_str (m !! "service") &&
      optional is_list (m !! "logs") && optional is_dict (m !! "metrics") &&
      optional is_dict (m !! "context") && optional is_str (m !! "timestamp")
  | _ => false
  end.

(** The fields of an incident record, with the defaults of absence. *)
Definition logs_of (inc : json) : list json :=
  match field "logs" inc with
  | Some (JList l) => l
  | _ => []
  end.

Definition metrics_of (inc : json) : gmap string json :=
  match field "metrics" inc with
  | Some (JDict m) => m
  | _ => ∅
  end.

Definition context_of (inc : json) : gmap string json :=
  match field "context" inc with
  | Some (JDict m) => m
  | _ => ∅
  end.

Definition timestamp_of (inc : json) : string :=
  match field "timestamp" inc with
  | Some (JStr s) => s
  | _ => ""
  end.

(** The incident's service, the empty string when absent. *)
Definition service_of (inc : json) : json :=
  default (JStr "") (field "service" inc).

(** [r.get('service')] and [r.get('id')] of a mapping: [None] when
    the key is absent. *)
Definition record_service (r : json) : json := default JNull (field "service" r).
Definition record_id (r : json) : json := default JNull (field "id" r).

(** A store record is similar to the incident: same service, other id. *)
Definition similar (inc r : json) : bool :=
  py_eq (record_service r) (service_of inc) &&
  negb (py_eq (record_id r) (record_id inc)).

(** A historical store as the script expects it. *)
Definition array_of_mappings (v : json) : bool :=
  match v with
  | JList l => forallb is_dict l
  | _ => false
  end.

(** The incident that [__main__] reads. *)
Definition primary_input (w : env) : file_state :=
  match argv w with
  | _ :: path :: _ => fs w path
  | _ => Exists (stdin w)
  end.

(** ** The outcome of a run, in closed form *)

(** The state after some lines went to the error stream. *)
Definition emit (σ : state) (lines : list string) : state :=
  State (heap σ) (stdout σ) (stderr σ ++ lines).

(** The first element that has no [get] method, if any. *)
Definition first_non_mapping (elems : list json) : option json :=
  List.find (λ x, negb (is_dict x)) elems.

(** The outcome of scanning the elements of the store: the selected
    records and the lines written to the error stream. *)
Definition scan (inc : json) (elems : list json) : list json * list string :=
  match first_non_mapping elems with
  | Some x => ([], [warning (attribute_error x "get")])
  | None => (take 3 (List.filter (similar inc) elems), [])
  end.

(** The outcome of lines 20-35 for an incident that is a mapping. *)
Definition selection (w : env) (inc : json) : list json * list string :=
  match fs w historical_path with
  | Absent => ([], [])
  | Exists (Raises e) => ([], [warning e])
  | Exists (Loads v) =>
      match v with
      | JList l => scan inc l
      | JDict m => scan inc (JStr <$> (map_to_list m).*1)
      | JStr s => scan inc (chars s)
      | _ => ([], [warning (not_iterable v)])
      end
  end.

Definition selected (w : env) (inc : json) : list json := (selection w inc).1.
Definition warnings (w : env) (inc : json) : list string := (selection w inc).2.

(** The report of a run on an incident record. *)
Definition report_of (inc : json) (historical : list json) : json :=
  aggregated inc
    (JInt (Z.of_nat (length (logs_of inc))))
    (JList (take 3 (logs_of inc)))
    (JDict (metrics_of inc))
    (JDict (context_of inc))
    (JInt (Z.of_nat (length historical)))
    (JList historical)
    (JInt (Z.of_nat (length (logs_of inc))))
    (JInt (Z.of_nat (size (metrics_of inc))))
    (JInt (Z.of_nat (length historical)))
    (JStr (timestamp_of inc)).

Definition pure {A} (c : M A) : Prop := ∀ σ, (c σ).2 = σ.

(** ** Sample data *)

Definition inc1 : json := JDict {[ "id" := JStr "inc-1"; "service" := JStr "payments" ]}.
Definition inc2 : json := JDict {[ "id" := JStr "inc-2"; "service" := JStr "payments" ]}.
Definition inc3 : json := JDict {[ "id" := JStr "inc-3"; "service" := JStr "billing" ]}.

Definition sample_store : list json := [inc1; inc2; inc3].

Definition sample_incident : json :=
  JDict {[ "id" := JStr "inc-2"; "service" := JStr "payments";
           "logs" := JList [JStr "a"; JStr "b"];
           "metrics" := JDict {[ "cpu" := JInt 90 ]};
           "timestamp" := JStr "T1" ]}.

(** A file system that holds the historical store and nothing else. *)
Definition only_store (r : load_result) : string → file_state :=
  λ p, if String.eqb p historical_path then Exists r else Absent.

Definition no_files : string → file_state := λ _, Absent.

(** The sample incident on standard input, the sample store on disk. *)
Definition sample_env : env :=
  Env ["aggregate_data.py"] (only_store (Loads (JList sample_store)))
      (Loads sample_incident).

(** A state in which the name [incident_data] is bound. *)
Definition bound (l : loc) (inc : json) : state := State {[ l := inc ]} [] [].

Definition sample_loc : loc := 1%positive.
Definition sample_state : state := bound sample_loc sample_incident.

(** A store with four records similar to the sample incident. *)
Definition payments (id : string) : json :=
  JDict {[ "id" := JStr id; "service" := JStr "payments" ]}.

Definition busy_env : env :=
  Env ["aggregate_data.py"]
      (only_store (Loads (JList [payments "inc-4"; inc3; payments "inc-5";
                                 inc2; payments "inc-6"; payments "inc-7"])))
      (Loads sample_incident).

(** A store with records that lack a service, and an incident that
    lacks one too. *)
Definition anonymous_record : json := JDict {[ "id" := JStr "inc-9" ]}.

Definition unnamed_incident : json :=
  JDict {[ "id" := JStr "inc-2"; "logs" := JList [JStr "a"] ]}.

Definition anonymous_env : env :=
  Env ["aggregate_data.py"]
      (only_store (Loads (JList [anonymous_record; inc1])))
      (Loads unnamed_incident).

(** The sample incident with no historical store on disk. *)
Definition storeless_env : env :=
  Env ["aggregate_data.py"] no_files (Loads sample_incident).

(** A store file that is not JSON. *)
Definition corrupt_store_env : env :=
  Env ["aggregate_data.py"]
      (only_store (Raises (Exn JSONDecodeError
                             "Expecting value: line 1 column 1 (char 0)")))
      (Loads sample_incident).

(** A store whose top-level value is the empty mapping. *)
Definition empty_mapping_env : env :=
  Env ["aggregate_data.py"] (only_store (Loads (JDict ∅)))
      (Loads sample_incident).

(** A store whose top-level value is a non-empty mapping. *)
Definition mapping_store_env : env :=
  Env ["aggregate_data.py"] (only_store (Loads inc1)) (Loads sample_incident).

(** A process whose incident file does not exist. *)
Definition missing_input_env : env :=
  Env ["aggregate_data.py"; "incident.json"] no_files (Loads sample_incident).

(** ** Inputs outside the data model *)

(** The values [len] accepts. *)
Definition sized (v : json) : bool :=
  match v with
  | JList _ | JStr _ | JDict _ => true
  | _ => false
  end.

(** The values [[:3]] accepts. *)
Definition sliceable (v : json) : bool :=
  match v with
  | JList _ | JStr _ => true
  | _ => false
  end.

(** The incidents on which the dict display evaluates: a mapping whose
    [logs], when present, can be measured and sliced and whose
    [metrics], when present, can be measured. *)
Definition accepted (v : json) : bool :=
  match v with
  | JDict m =>
      sliceable (default (JList []) (m !! "logs")) &&
      sized (default (JDict ∅) (m !! "metrics"))
  | _ => false
  end.

(** [len(v)] of a sized value. *)
Definition length_of (v : json) : json :=
  JInt (Z.of_nat (match v with
                  | JList l => length l
                  | JStr s => String.length s
                  | JDict m => size m
                  | _ => 0
                  end)).

(** [v[:3]] of a sliceable value. *)
Definition first3 (v : json) : json :=
  match v with
  | JList l => JList (take 3 l)
  | JStr s => JStr (String.substring 0 3 s)
  | _ => v
  end.

(** The line the [except] branch writes. *)
Definition is_warning (line : string) : Prop := ∃ e, line = warning e.

(** An incident whose logs are one string, and one whose logs are a
    number. *)
Definition text_logs_incident : json :=
  JDict {[ "id" := JStr "inc-2"; "service" := JStr "payments";
           "logs" := JStr "timeout" ]}.

Definition numeric_logs_incident : json :=
  JDict {[ "id" := JStr "inc-2"; "logs" := JInt 5 ]}.

Definition numeric_logs_env : env :=
  Env ["aggregate_data.py"] (only_store (Loads (JList sample_store)))
      (Loads numeric_logs_incident).

(** The sample incident in a file, next to the sample store. *)
Definition file_env : env :=
  Env ["aggregate_data.py"; "incident.json"; "ignored"]
      (λ p, if String.eqb p "incident.json" then Exists (Loads sample_incident)
            else only_store (Loads (JList sample_store)) p)
      (Raises (Exn JSONDecodeError "Expecting value: line 1 column 1 (char 0)")).

(** ** [==] on some values *)

Example eq_bool_int_float :
  py_eq (JBool true) (JInt 1) = true ∧
  py_eq (JInt 3) (JFloat (S754_finite false 6 (-1))) = true ∧
  py_eq (JInt 3) (JFloat (S754_finite false 7 (-1))) = false ∧
  py_eq (JFloat (S754_zero true)) (JInt 0) = true.
Proof. by repeat split. Qed.

Example eq_nan :
  py_eq (JFloat S754_nan) (JFloat S754_nan) = false ∧
  py_eq (JList [JFloat S754_nan]) (JList [JFloat S754_nan]) = true.
Proof. by split. Qed.

Example eq_dict_any_order :
  py_eq (JDict {[ "a" := JInt 1; "b" := JList [JNull] ]})
        (JDict {[ "b" := JList [JNull]; "a" := JBool true ]}) = true ∧
  py_eq (JDict {[ "a" := JInt 1 ]}) (JDict {[ "a" := JInt 1; "b" := JNull ]})
    = false.
Proof. split; vm_compute; reflexivity. Qed.

Example eq_across_types :
  py_eq JNull (JStr "") = false ∧ py_eq (JStr "1") (JInt 1) = false ∧
  py_eq JNull (JBool false) = false ∧ py_eq (JList []) (JDict ∅) = false.
Proof. by repeat split. Qed.

(** ** What a run does: the monad and the primitives *)

Lemma emit_nil σ : emit σ [] = σ.
Proof. destruct σ; unfold emit; simpl. by rewrite app_nil_r. Qed.

Lemma obj_get_run l k d σ m :
  heap σ !! l = Some (JDict m) →
  obj_get l k d σ = (Ok (default d (m !! k)), σ).
Proof. intros Hl. unfold obj_get, bind, deref. by rewrite Hl. Qed.

Lemma obj_get_not_dict l k d σ v :
  heap σ !! l = Some v → is_dict v = false →
  obj_get l k d σ = (Raise (attribute_error v "get"), σ).
Proof.
  intros Hl Hv. unfold obj_get, bind, deref. rewrite Hl.
  by destruct v.
Qed.

(** The comprehension is a filter when every element is a mapping, and
    raises at the first element that is not. *)
Lemma comprehension_run l σ m elems :
  heap σ !! l = Some (JDict m) →
  comprehension l (service_of (JDict m)) elems σ =
    match first_non_mapping elems with
    | Some x => (Raise (attribute_error x "get"), σ)
    | None => (Ok (List.filter (similar (JDict m)) elems), σ)
    end.
Proof.
  intros Hl. induction elems as [|inc rest IH]; [done|].
  cbn [comprehension first_non_mapping List.find List.filter].
  destruct inc as [| | | | |?|mi];
    try (unfold first_non_mapping; by cbn).
  change (List.find _ rest) with (first_non_mapping rest).
  unfold bind at 1. cbn [dict_get ret is_dict negb].
  unfold similar at 1, record_service, record_id. cbn [field].
  destruct (py_eq (default JNull (mi !! "service")) (service_of (JDict m))).
  - unfold bind at 1. unfold bind at 1. cbn [dict_get ret].
    unfold bind at 1. rewrite (obj_get_run _ _ _ _ _ Hl). cbn [ret andb].
    unfold bind. rewrite IH.
    destruct (first_non_mapping rest); [done|]. by destruct (negb _).
  - unfold bind. cbn [ret andb]. rewrite IH.
    by destruct (first_non_mapping rest).
Qed.

Lemma historical_incidents_run w l σ m :
  heap σ !! l = Some (JDict m) →
  historical_incidents w l σ =
    (Ok (selected w (JDict m)), emit σ (warnings w (JDict m))).
Proof.
  intros Hl. unfold historical_incidents, selected, warnings, selection.
  destruct (fs w historical_path) as [|[e|v]].
  - by rewrite emit_nil.
  - done.
  - assert (Hscan : ∀ elems,
      try_except
        (let* selected := comprehension l (service_of (JDict m)) elems in
         ret (take 3 selected))
        (λ e, let* _ := print_stderr (warning e) in ret []) σ =
      (Ok (scan (JDict m) elems).1, emit σ (scan (JDict m) elems).2)).
    { intros elems. unfold try_except, bind, scan.
      rewrite (comprehension_run _ _ _ _ Hl).
      destruct (first_non_mapping elems); [done|].
      by rewrite emit_nil. }
    unfold try_except, bind at 1. cbn [json_load ret].
    unfold bind at 1. rewrite (obj_get_run _ _ _ _ _ Hl).
    change (default (JStr "") (m !! "service")) with (service_of (JDict m)).
    destruct v; unfold bind at 1; cbn [py_iter ret raise]; try done;
      apply Hscan.
Qed.

Lemma len_logs m :
  optional is_list (m !! "logs") = true →
  py_len (default (JList []) (m !! "logs")) =
    ret (JInt (Z.of_nat (length (logs_of (JDict m))))).
Proof.
  unfold logs_of. cbn [field].
  generalize (m !! "logs"). by intros [[]|].
Qed.

Lemma slice_logs m :
  optional is_list (m !! "logs") = true →
  py_slice3 (default (JList []) (m !! "logs")) =
    ret (JList (take 3 (logs_of (JDict m)))).
Proof.
  unfold logs_of. cbn [field].
  generalize (m !! "logs"). by intros [[]|].
Qed.

Lemma get_metrics m :
  optional is_dict (m !! "metrics") = true →
  default (JDict ∅) (m !! "metrics") = JDict (metrics_of (JDict m)).
Proof.
  unfold metrics_of. cbn [field].
  generalize (m !! "metrics"). by intros [[]|].
Qed.

Lemma get_context m :
  optional is_dict (m !! "context") = true →
  default (JDict ∅) (m !! "context") = JDict (context_of (JDict m)).
Proof.
  unfold context_of. cbn [field].
  generalize (m !! "context"). by intros [[]|].
Qed.

Lemma get_timestamp m :
  optional is_str (m !! "timestamp") = true →
  default (JStr "") (m !! "timestamp") = JStr (timestamp_of (JDict m)).
Proof.
  unfold timestamp_of. cbn [field].
  generalize (m !! "timestamp"). by intros [[]|].
Qed.

Lemma aggregate_run w l σ inc :
  incident_record inc = true →
  heap σ !! l = Some inc →
  aggregate_incident_data w l σ =
    (Ok (report_of inc (selected w inc)), emit σ (warnings w inc)).
Proof.
  intros Hrec Hl. destruct inc as [| | | | | |m]; try done.
  assert (Hl' : heap (emit σ (warnings w (JDict m))) !! l = Some (JDict m))
    by done.
  cbn [incident_record] in Hrec.
  repeat (apply andb_prop in Hrec as [Hrec ?]).
  unfold aggregate_incident_data, bind at 1.
  rewrite (historical_incidents_run _ _ _ _ Hl).
  unfold bind at 1, deref. rewrite Hl'.
  repeat (unfold bind at 1;
          first [ rewrite (obj_get_run _ _ _ _ _ Hl')
                | rewrite len_logs by done
                | rewrite slice_logs by done
                | idtac ];
          cbn [ret];
          rewrite ?get_metrics, ?get_context, ?get_timestamp by done;
          cbn [py_len ret]).
  reflexivity.
Qed.

(** ** Reading the entries of the report *)

Section Entries.
Variables (inc : json) (historical : list json).

Let report := report_of inc historical.

Lemma entry_current_incident :
  field "current_incident" report = Some inc.
Proof. reflexivity. Qed.

Lemma entry_logs_count :
  path ["data_sources"; "logs"; "count"] report =
    Some (JInt (Z.of_nat (length (logs_of inc)))).
Proof. reflexivity. Qed.

Lemma entry_logs_sample :
  path ["data_sources"; "logs"; "sample"] report =
    Some (JList (take 3 (logs_of inc))).
Proof. reflexivity. Qed.

Lemma entry_metrics_data :
  path ["data_sources"; "metrics"; "data"] report =
    Some (JDict (metrics_of inc)).
Proof. reflexivity. Qed.

Lemma entry_context_data :
  path ["data_sources"; "context"; "data"] report =
    Some (JDict (context_of inc)).
Proof. reflexivity. Qed.

Lemma entry_historical_count :
  path ["data_sources"; "historical_patterns"; "count"] report =
    Some (JInt (Z.of_nat (length historical))).
Proof. reflexivity. Qed.

Lemma entry_historical_incidents :
  path ["data_sources"; "historical_patterns"; "incidents"] report =
    Some (JList historical).
Proof. reflexivity. Qed.

Lemma entry_total_sources :
  path ["aggregation_summary"; "total_sources"] report = Some (JInt 4).
Proof. reflexivity. Qed.

Lemma entry_log_entries :
  path ["aggregation_summary"; "log_entries"] report =
    Some (JInt (Z.of_nat (length (logs_of inc)))).
Proof. reflexivity. Qed.

Lemma entry_metric_points :
  path ["aggregation_summary"; "metric_points"] report =
    Some (JInt (Z.of_nat (size (metrics_of inc)))).
Proof. reflexivity. Qed.

Lemma entry_similar_incidents :
  path ["aggregation_summary"; "similar_incidents"] report =
    Some (JInt (Z.of_nat (length historical))).
Proof. reflexivity. Qed.

Lemma entry_aggregation_timestamp :
  path ["aggregation_summary"; "aggregation_timestamp"] report =
    Some (JStr (timestamp_of inc)).
Proof. reflexivity. Qed.
End Entries.

(** ** Computations that leave the state alone *)

Lemma pure_run {A} (c : M A) σ r σ' : pure c → c σ = (r, σ') → σ' = σ.
Proof. intros Hc Hrun. specialize (Hc σ). by rewrite Hrun in Hc. Qed.

Lemma pure_ret {A} (a : A) : pure (ret a).
Proof. by intros σ. Qed.

Lemma pure_raise {A} e : pure (@raise A e).
Proof. by intros σ. Qed.

Lemma pure_bind {A B} (c : M A) (k : A → M B) :
  pure c → (∀ a, pure (k a)) → pure (bind c k).
Proof.
  intros Hc Hk σ. unfold bind. specialize (Hc σ).
  destruct (c σ) as [[a| |] σ1]; simpl in *; subst; [apply Hk|done..].
Qed.

Lemma pure_deref l : pure (deref l).
Proof. intros σ. unfold deref. by destruct (heap σ !! l). Qed.

Lemma pure_json_load r : pure (json_load r).
Proof. by destruct r. Qed.

Lemma pure_dict_get v k d : pure (dict_get v k d).
Proof. by destruct v. Qed.

Lemma pure_py_len v : pure (py_len v).
Proof. by destruct v. Qed.

Lemma pure_py_slice3 v : pure (py_slice3 v).
Proof. by destruct v. Qed.

Lemma pure_py_iter v : pure (py_iter v).
Proof. by destruct v. Qed.

Create HintDb pure.
#[local] Hint Resolve pure_ret pure_raise pure_deref pure_json_load
  pure_dict_get pure_py_len pure_py_slice3 pure_py_iter : pure.

Lemma pure_obj_get l k d : pure (obj_get l k d).
Proof. apply pure_bind; auto with pure. Qed.
#[local] Hint Resolve pure_obj_get : pure.

Lemma pure_comprehension l service elems :
  pure (comprehension l service elems).
Proof.
  induction elems as [|inc rest IH]; cbn [comprehension]; [auto with pure|].
  apply pure_bind; [auto with pure|]. intros s.
  apply pure_bind.
  - destruct (py_eq s service); [|auto with pure].
    repeat (apply pure_bind; [auto with pure|]; intros ?). auto with pure.
  - intros keep. apply pure_bind; [done|]. auto with pure.
Qed.
#[local] Hint Resolve pure_comprehension : pure.

(** Lines 20-35 write at most one line, to the error stream. *)
Lemma historical_incidents_emits w l σ :
  ∃ lines, (historical_incidents w l σ).2 = emit σ lines ∧
           (length lines ≤ 1)%nat.
Proof.
  assert (Hnil : ∀ r : result (list json),
    ∃ lines, (r, σ).2 = emit σ lines ∧ (length lines ≤ 1)%nat).
  { intros r. exists []. rewrite emit_nil. split; [done|simpl; lia]. }
  unfold historical_incidents.
  destruct (fs w historical_path) as [|f]; [apply Hnil|].
  unfold try_except.
  match goal with |- context [match ?c σ with _ => _ end] =>
    assert (Hp : pure c) end.
  { repeat (apply pure_bind; [auto with pure|]; intros ?). auto with pure. }
  match type of Hp with pure ?c =>
    specialize (Hp σ); destruct (c σ) as [[sel|e|] σ1] end;
    simpl in Hp; subst σ1; [apply Hnil| |apply Hnil].
  exists [warning e]. split; [done|simpl; lia].
Qed.

(** Whatever the input and the outcome, [aggregate_incident_data]
    changes no object and prints nothing to standard output. *)
Lemma aggregate_frame w l σ :
  ∃ lines, (aggregate_incident_data w l σ).2 = emit σ lines.
Proof.
  destruct (historical_incidents_emits w l σ) as (lines & Hh & _).
  exists lines. unfold aggregate_incident_data, bind at 1.
  destruct (historical_incidents w l σ) as [[hist|e|] σ1];
    simpl in Hh; subst σ1; [|done..].
  match goal with |- (?c _).2 = _ => assert (Hp : pure c) end.
  { repeat (apply pure_bind; [auto with pure|]; intros ?). auto with pure. }
  apply Hp.
Qed.

Lemma bind_Ok_inv {A B} (c : M A) (k : A → M B) σ b σ' :
  bind c k σ = (Ok b, σ') →
  ∃ a σ1, c σ = (Ok a, σ1) ∧ k a σ1 = (Ok b, σ').
Proof.
  unfold bind. destruct (c σ) as [[a| |] σ1]; [eauto|done..].
Qed.

(** One step of a successful run: the first command of [H] returned
    [a], by [Ha], and left the state alone. *)
Tactic Notation "pure_step" hyp(H) "as" ident(a) ident(Ha) :=
  apply bind_Ok_inv in H as (a & ? & Ha & H);
  pose proof Ha as ->%pure_run; [|auto with pure].

(** Every report that is produced is the display [aggregated] over one
    evaluation of lines 20-35, with the same [len] of the logs in both
    of its places. *)
Lemma aggregate_Ok_inv w l σ report σ' :
  aggregate_incident_data w l σ = (Ok report, σ') →
  ∃ historical current logs_count logs_sample metrics context
    metric_points timestamp,
    historical_incidents w l σ = (Ok historical, σ') ∧
    report = aggregated current logs_count logs_sample metrics context
               (JInt (Z.of_nat (length historical))) (JList historical)
               logs_count metric_points
               (JInt (Z.of_nat (length historical))) timestamp.
Proof.
  unfold aggregate_incident_data. intros H.
  apply bind_Ok_inv in H as (hist & σ1 & Hh & H).
  pure_step H as cur Hcur. pure_step H as logs Hlogs.
  pure_step H as lc Hlc. pure_step H as logs' Hlogs'.
  pure_step H as ls Hls. pure_step H as me Hme. pure_step H as cx Hcx.
  pure_step H as logs'' Hlogs''.
  rewrite Hlogs in Hlogs''. injection Hlogs'' as <-.
  pure_step H as lc' Hlc'. rewrite Hlc in Hlc'. injection Hlc' as <-.
  pure_step H as me' Hme'. pure_step H as mp Hmp. pure_step H as ts Hts.
  injection H as <- <-. by eexists _, _, _, _, _, _, _, _.
Qed.

(** ** Equality on strings and [None] *)

Lemma py_eq_str s t : py_eq (JStr s) (JStr t) = true ↔ s = t.
Proof. cbn [py_eq]. apply String.eqb_eq. Qed.

Lemma py_eq_None_str s : py_eq JNull (JStr s) = false.
Proof. reflexivity. Qed.

Lemma optional_str o :
  optional is_str o = true → o = None ∨ ∃ s, o = Some (JStr s).
Proof. destruct o as [[]|]; try done; eauto. Qed.

Lemma record_str_fields inc :
  incident_record inc = true →
  (field "id" inc = None ∨ ∃ s, field "id" inc = Some (JStr s)) ∧
  (field "service" inc = None ∨ ∃ s, field "service" inc = Some (JStr s)).
Proof.
  destruct inc as [| | | | | |m]; try done. cbn [incident_record field].
  intros H. repeat (apply andb_prop in H as [H ?]).
  split; by apply optional_str.
Qed.

Lemma service_of_record inc :
  incident_record inc = true → ∃ s, service_of inc = JStr s.
Proof.
  intros [_ [Hs|[s Hs]]]%record_str_fields; unfold service_of; rewrite Hs;
    by eexists.
Qed.

(** On records of the data model, [similar] is equality of the
    services and difference of the ids, absent fields included. *)
Lemma similar_records inc r :
  incident_record inc = true → incident_record r = true →
  similar inc r = true ↔
    field "service" r = Some (service_of inc) ∧ field "id" r ≠ field "id" inc.
Proof.
  intros [Hi Hs]%record_str_fields [Hri Hrs]%record_str_fields.
  unfold similar, record_service, record_id, service_of.
  rewrite andb_true_iff, negb_true_iff.
  destruct Hi as [Hi|[i Hi]], Hs as [Hs|[s Hs]],
    Hri as [Hri|[ri Hri]], Hrs as [Hrs|[rs Hrs]];
    rewrite Hi, Hs, Hri, Hrs; cbn [default from_option id py_eq];
    rewrite ?String.eqb_eq, ?String.eqb_neq; intuition congruence.
Qed.

(** ** The selection *)

Lemma first_non_mapping_None elems :
  forallb is_dict elems = true → first_non_mapping elems = None.
Proof.
  induction elems as [|x rest IH]; [done|].
  cbn [forallb first_non_mapping List.find]. intros [Hx Hr]%andb_prop.
  rewrite Hx. by apply IH.
Qed.

Lemma first_non_mapping_Some elems :
  forallb is_dict elems = false →
  ∃ x, first_non_mapping elems = Some x ∧ is_dict x = false.
Proof.
  induction elems as [|x rest IH]; [done|].
  cbn [forallb first_non_mapping List.find].
  destruct (is_dict x) eqn:Hx; cbn [andb negb]; [done|]. eauto.
Qed.

Lemma filter_sublist {A} (f : A → bool) (l : list A) :
  List.filter f l `sublist_of` l.
Proof.
  induction l as [|x l IH]; cbn [List.filter]; [constructor|].
  destruct (f x); by constructor.
Qed.

Lemma take_filter_sublist {A} (f : A → bool) n (l : list A) :
  take n (List.filter f l) `sublist_of` l.
Proof. etrans; [apply sublist_take|apply filter_sublist]. Qed.

Lemma take_filter_Forall {A} (f : A → bool) n (l : list A) :
  Forall (λ x, f x = true) (take n (List.filter f l)).
Proof.
  apply Forall_take, Forall_forall. intros x Hx.
  apply list_elem_of_In, filter_In in Hx. tauto.
Qed.

Lemma scan_similar inc elems :
  Forall (λ r, similar inc r = true) (scan inc elems).1.
Proof.
  unfold scan. destruct (first_non_mapping elems); [constructor|].
  apply take_filter_Forall.
Qed.

(** Whatever the store is, only similar records are selected. *)
Lemma selected_similar w inc :
  Forall (λ r, similar inc r = true) (selected w inc).
Proof.
  unfold selected, selection.
  destruct (fs w historical_path) as [|[e|v]]; try constructor.
  destruct v; try constructor; apply scan_similar.
Qed.

Lemma selected_array w inc store :
  fs w historical_path = Exists (Loads (JList store)) →
  forallb is_dict store = true →
  selection w inc = (take 3 (List.filter (similar inc) store), []).
Proof.
  intros Hfs Hstore. unfold selection, scan. rewrite Hfs.
  by rewrite first_non_mapping_None.
Qed.

(** ** Runs on bad input *)

Lemma display_not_mapping l σ v (k : json → json → M json) :
  heap σ !! l = Some v → is_dict v = false →
  (let* current_incident := deref l in
   let* logs := obj_get l "logs" (JList []) in
   k current_incident logs) σ = (Raise (attribute_error v "get"), σ).
Proof.
  intros Hl Hv. unfold bind at 1, deref. rewrite Hl. unfold bind at 1.
  by rewrite (obj_get_not_dict _ _ _ _ v).
Qed.

(** An incident that is not a mapping: whatever lines 20-35 do, the
    first lookup of the display raises, and nothing catches it. *)
Lemma aggregate_not_mapping w l σ v :
  heap σ !! l = Some v → is_dict v = false →
  ∃ lines, aggregate_incident_data w l σ =
             (Raise (attribute_error v "get"), emit σ lines).
Proof.
  intros Hl Hv.
  unfold aggregate_incident_data, bind at 1, historical_incidents.
  destruct (fs w historical_path) as [|[e|v']].
  - exists []. cbn [ret]. rewrite emit_nil. by apply display_not_mapping.
  - exists [warning e]. cbn. by apply display_not_mapping.
  - exists [warning (attribute_error v "get")].
    unfold try_except, bind at 1. cbn [json_load ret].
    unfold bind at 1. rewrite (obj_get_not_dict _ _ _ _ v) by done.
    cbn. by apply display_not_mapping.
Qed.

(** ** Properties of the report *)

(** C1: for an incident record and a store that is a sequence of
    mappings, the selected historical matches are the first at most 3
    records of the store, in store order, whose service equals the
    incident's (the empty string when absent) and whose id differs from
    the incident's; the selection has at most 3 entries, all of them
    with the incident's service and none with its id.  On records of
    the data model "equals" and "differs" are plain equality of the
    fields. *)
Theorem selects_first_three_similar w l σ inc store :
  incident_record inc = true →
  heap σ !! l = Some inc →
  fs w historical_path = Exists (Loads (JList store)) →
  forallb is_dict store = true →
  ∃ report chosen,
    aggregate_incident_data w l σ = (Ok report, σ) ∧
    path ["data_sources"; "historical_patterns"; "incidents"] report =
      Some (JList chosen) ∧
    chosen = take 3 (List.filter (similar inc) store) ∧
    chosen `sublist_of` store ∧
    (length chosen ≤ 3)%nat ∧
    Forall (λ r, py_eq (record_service r) (service_of inc) = true ∧
                 py_eq (record_id r) (record_id inc) = false) chosen ∧
    (∀ r, incident_record r = true →
          similar inc r = true ↔
            field "service" r = Some (service_of inc) ∧
            field "id" r ≠ field "id" inc).
Proof.
  intros Hrec Hl Hfs Hstore.
  pose proof (aggregate_run w l σ inc Hrec Hl) as Hrun.
  unfold selected, warnings in Hrun.
  rewrite (selected_array _ _ _ Hfs Hstore) in Hrun. cbn [fst snd] in Hrun.
  rewrite emit_nil in Hrun.
  eexists _, _. split; [exact Hrun|].
  split; [apply entry_historical_incidents|].
  split; [done|]. split; [apply take_filter_sublist|].
  split; [rewrite length_take; lia|].
  split; [|intros r Hr; by apply similar_records].
  eapply Forall_impl; [apply take_filter_Forall|].
  intros r [Hs Hi]%andb_prop. by apply negb_true_iff in Hi.
Qed.

Lemma selects_first_three_similar_witness :
  ∃ report,
    aggregate_incident_data sample_env sample_loc sample_state =
      (Ok report, sample_state) ∧
    path ["data_sources"; "historical_patterns"; "incidents"] report =
      Some (JList [inc1]).
Proof.
  destruct (selects_first_three_similar sample_env sample_loc sample_state
              sample_incident sample_store)
    as (report & chosen & Hrun & Hpath & Hchosen & _);
    [reflexivity..|].
  exists report. split; [exact Hrun|].
  rewrite Hpath, Hchosen. reflexivity.
Defined.

(** C2: for an incident record, the report's [current_incident] is the
    input record, and the operation changes no object: the heap after
    the call is the heap before it, so the name still refers to the
    same record, with every field as it was. *)
Theorem current_incident_is_input_unmodified w l σ inc :
  incident_record inc = true →
  heap σ !! l = Some inc →
  ∃ report σ',
    aggregate_incident_data w l σ = (Ok report, σ') ∧
    field "current_incident" report = Some inc ∧
    heap σ' = heap σ ∧
    heap σ' !! l = Some inc ∧
    stdout σ' = stdout σ.
Proof.
  intros Hrec Hl. eexists _, _.
  split; [by apply aggregate_run|].
  split; [apply entry_current_incident|done].
Qed.

Lemma current_incident_is_input_unmodified_witness :
  ∃ report σ',
    aggregate_incident_data sample_env sample_loc sample_state =
      (Ok report, σ') ∧
    field "current_incident" report = Some sample_incident ∧
    heap σ' = heap sample_state ∧
    heap σ' !! sample_loc = Some sample_incident ∧
    stdout σ' = stdout sample_state.
Proof.
  apply (current_incident_is_input_unmodified sample_env sample_loc
           sample_state sample_incident); reflexivity.
Defined.

(** C3: for an incident record, the report's [aggregation_summary] has
    [total_sources] 4, [log_entries] the length of the incident's logs
    (0 when absent), [metric_points] the number of entries of its
    metrics (0 when absent), [similar_incidents] the number of selected
    historical matches, and [aggregation_timestamp] the incident's
    timestamp (the empty string when absent). *)
Theorem aggregation_summary_entries w l σ inc :
  incident_record inc = true →
  heap σ !! l = Some inc →
  ∃ report σ' chosen,
    aggregate_incident_data w l σ = (Ok report, σ') ∧
    path ["data_sources"; "historical_patterns"; "incidents"] report =
      Some (JList chosen) ∧
    path ["aggregation_summary"; "total_sources"] report = Some (JInt 4) ∧
    path ["aggregation_summary"; "log_entries"] report =
      Some (JInt (Z.of_nat (length (logs_of inc)))) ∧
    path ["aggregation_summary"; "metric_points"] report =
      Some (JInt (Z.of_nat (size (metrics_of inc)))) ∧
    path ["aggregation_summary"; "similar_incidents"] report =
      Some (JInt (Z.of_nat (length chosen))) ∧
    path ["aggregation_summary"; "aggregation_timestamp"] report =
      Some (JStr (timestamp_of inc)).
Proof.
  intros Hrec Hl. eexists _, _, _.
  split; [by apply aggregate_run|].
  split; [apply entry_historical_incidents|].
  split; [apply entry_total_sources|].
  split; [apply entry_log_entries|].
  split; [apply entry_metric_points|].
  split; [apply entry_similar_incidents|apply entry_aggregation_timestamp].
Qed.

Lemma aggregation_summary_entries_witness :
  ∃ report σ' chosen,
    aggregate_incident_data sample_env sample_loc sample_state =
      (Ok report, σ') ∧
    path ["data_sources"; "historical_patterns"; "incidents"] report =
      Some (JList chosen) ∧
    path ["aggregation_summary"; "total_sources"] report = Some (JInt 4) ∧
    path ["aggregation_summary"; "log_entries"] report =
      Some (JInt (Z.of_nat (length [JStr "a"; JStr "b"]))) ∧
    path ["aggregation_summary"; "metric_points"] report =
      Some (JInt (Z.of_nat (size ({[ "cpu" := JInt 90 ]} : gmap string json)))) ∧
    path ["aggregation_summary"; "similar_incidents"] report =
      Some (JInt (Z.of_nat (length chosen))) ∧
    path ["aggregation_summary"; "aggregation_timestamp"] report =
      Some (JStr "T1").
Proof.
  apply (aggregation_summary_entries sample_env sample_loc sample_state
           sample_incident); reflexivity.
Defined.

(** C4: for an incident record, in the report's [data_sources],
    [logs.count] is the length of the incident's logs, [logs.sample]
    is their first min(3, length) entries in order, [metrics.data] is
    the incident's metrics and [context.data] its context, each the
    empty default when the field is absent. *)
Theorem data_sources_entries w l σ inc :
  incident_record inc = true →
  heap σ !! l = Some inc →
  ∃ report σ',
    aggregate_incident_data w l σ = (Ok report, σ') ∧
    path ["data_sources"; "logs"; "count"] report =
      Some (JInt (Z.of_nat (length (logs_of inc)))) ∧
    path ["data_sources"; "logs"; "sample"] report =
      Some (JList (take 3 (logs_of inc))) ∧
    length (take 3 (logs_of inc)) = (3 `min` length (logs_of inc))%nat ∧
    take 3 (logs_of inc) `prefix_of` logs_of inc ∧
    path ["data_sources"; "metrics"; "data"] report =
      Some (JDict (metrics_of inc)) ∧
    path ["data_sources"; "context"; "data"] report =
      Some (JDict (context_of inc)).
Proof.
  intros Hrec Hl. eexists _, _.
  split; [by apply aggregate_run|].
  split; [apply entry_logs_count|].
  split; [apply entry_logs_sample|].
  split; [rewrite length_take; lia|].
  split; [apply prefix_take|].
  split; [apply entry_metrics_data|apply entry_context_data].
Qed.

Lemma data_sources_entries_witness :
  ∃ report σ',
    aggregate_incident_data sample_env sample_loc sample_state =
      (Ok report, σ') ∧
    path ["data_sources"; "logs"; "count"] report = Some (JInt 2) ∧
    path ["data_sources"; "logs"; "sample"] report =
      Some (JList [JStr "a"; JStr "b"]) ∧
    length (take 3 [JStr "a"; JStr "b"]) = (3 `min` 2)%nat ∧
    take 3 [JStr "a"; JStr "b"] `prefix_of` [JStr "a"; JStr "b"] ∧
    path ["data_sources"; "metrics"; "data"] report =
      Some (JDict {[ "cpu" := JInt 90 ]}) ∧
    path ["data_sources"; "context"; "data"] report = Some (JDict ∅).
Proof.
  apply (data_sources_entries sample_env sample_loc sample_state
           sample_incident); reflexivity.
Defined.

(** C7: for the incident
    [{"id":"inc-2","service":"payments","logs":["a","b"],
      "metrics":{"cpu":90},"timestamp":"T1"}]
    and the store
    [[{"id":"inc-1","service":"payments"},
      {"id":"inc-2","service":"payments"},
      {"id":"inc-3","service":"billing"}]],
    [historical_patterns.count] is 1 and the single selected match is
    the record with id "inc-1". *)
Theorem sample_selects_inc1 w l σ :
  heap σ !! l = Some sample_incident →
  fs w historical_path = Exists (Loads (JList sample_store)) →
  ∃ report,
    aggregate_incident_data w l σ = (Ok report, σ) ∧
    path ["data_sources"; "historical_patterns"; "count"] report =
      Some (JInt 1) ∧
    path ["data_sources"; "historical_patterns"; "incidents"] report =
      Some (JList [JDict {[ "id" := JStr "inc-1";
                            "service" := JStr "payments" ]}]).
Proof.
  intros Hl Hfs.
  pose proof (aggregate_run w l σ sample_incident eq_refl Hl) as Hrun.
  unfold selected, warnings in Hrun.
  rewrite (selected_array _ _ sample_store Hfs eq_refl) in Hrun.
  cbn [fst snd] in Hrun. rewrite emit_nil in Hrun.
  eexists. split; [exact Hrun|].
  split; [rewrite entry_historical_count|rewrite entry_historical_incidents];
    reflexivity.
Qed.

Lemma sample_selects_inc1_witness :
  ∃ report,
    aggregate_incident_data sample_env sample_loc sample_state =
      (Ok report, sample_state) ∧
    path ["data_sources"; "historical_patterns"; "count"] report =
      Some (JInt 1) ∧
    path ["data_sources"; "historical_patterns"; "incidents"] report =
      Some (JList [JDict {[ "id" := JStr "inc-1";
                            "service" := JStr "payments" ]}]).
Proof.
  apply (sample_selects_inc1 sample_env sample_loc sample_state);
    reflexivity.
Defined.

(** The same example as a run of the process: the incident comes from
    standard input, one report is printed, nothing is written to the
    error stream and the exit status is 0. *)
Example sample_run :
  ∃ report σ',
    run sample_env = (Ok tt, σ') ∧ exit_status (run sample_env).1 = 0%Z ∧
    stdout σ' = [report] ∧ stderr σ' = [] ∧
    path ["data_sources"; "historical_patterns"; "count"] report =
      Some (JInt 1) ∧
    path ["data_sources"; "historical_patterns"; "incidents"] report =
      Some (JList [inc1]).
Proof. eexists _, _. repeat split; vm_compute; reflexivity. Qed.

(** C8: in every report that is produced, [log_entries] of the summary
    equals [logs.count], and [similar_incidents] equals
    [historical_patterns.count], which is the length of
    [historical_patterns.incidents]. *)
Theorem summary_agrees_with_sources w l σ report σ' :
  aggregate_incident_data w l σ = (Ok report, σ') →
  ∃ log_count similar_count chosen,
    path ["aggregation_summary"; "log_entries"] report = Some log_count ∧
    path ["data_sources"; "logs"; "count"] report = Some log_count ∧
    path ["aggregation_summary"; "similar_incidents"] report =
      Some (JInt similar_count) ∧
    path ["data_sources"; "historical_patterns"; "count"] report =
      Some (JInt similar_count) ∧
    path ["data_sources"; "historical_patterns"; "incidents"] report =
      Some (JList chosen) ∧
    similar_count = Z.of_nat (length chosen).
Proof.
  intros (hist & cur & lc & ls & me & cx & mp & ts & _ & ->)%aggregate_Ok_inv.
  exists lc, (Z.of_nat (length hist)), hist. by repeat split.
Qed.

Lemma summary_agrees_with_sources_witness :
  ∃ log_count similar_count chosen,
    path ["aggregation_summary"; "log_entries"]
         (report_of sample_incident [inc1]) = Some log_count ∧
    path ["data_sources"; "logs"; "count"]
         (report_of sample_incident [inc1]) = Some log_count ∧
    path ["aggregation_summary"; "similar_incidents"]
         (report_of sample_incident [inc1]) = Some (JInt similar_count) ∧
    path ["data_sources"; "historical_patterns"; "count"]
         (report_of sample_incident [inc1]) = Some (JInt similar_count) ∧
    path ["data_sources"; "historical_patterns"; "incidents"]
         (report_of sample_incident [inc1]) = Some (JList chosen) ∧
    similar_count = Z.of_nat (length chosen).
Proof.
  apply (summary_agrees_with_sources sample_env sample_loc sample_state
           (report_of sample_incident [inc1]) sample_state).
  reflexivity.
Defined.

(** C9: a store record without a [service] key is never selected,
    whatever the incident record, also when the incident has no
    [service] itself: the incident's service is then the empty string,
    the record's is [None], and the two are unequal. *)
Theorem record_without_service_never_selected w l σ inc :
  incident_record inc = true →
  heap σ !! l = Some inc →
  ∃ report σ' chosen,
    aggregate_incident_data w l σ = (Ok report, σ') ∧
    path ["data_sources"; "historical_patterns"; "incidents"] report =
      Some (JList chosen) ∧
    (∀ m : gmap string json, m !! "service" = None → JDict m ∉ chosen) ∧
    (field "service" inc = None →
     service_of inc = JStr "" ∧ py_eq JNull (service_of inc) = false).
Proof.
  intros Hrec Hl. eexists _, _, _.
  split; [by apply aggregate_run|].
  split; [apply entry_historical_incidents|].
  split.
  - intros m Hm Hin.
    pose proof (selected_similar w inc) as Hall.
    rewrite Forall_forall in Hall. apply Hall in Hin.
    destruct (service_of_record inc Hrec) as [s Hs].
    unfold similar, record_service in Hin. cbn [field] in Hin.
    rewrite Hm, Hs in Hin. discriminate Hin.
  - intros Hnone. unfold service_of. by rewrite Hnone.
Qed.

Lemma record_without_service_never_selected_witness :
  ∃ report σ' chosen,
    aggregate_incident_data anonymous_env sample_loc
        (bound sample_loc unnamed_incident) = (Ok report, σ') ∧
    path ["data_sources"; "historical_patterns"; "incidents"] report =
      Some (JList chosen) ∧
    (∀ m : gmap string json, m !! "service" = None → JDict m ∉ chosen) ∧
    (field "service" unnamed_incident = None →
     service_of unnamed_incident = JStr "" ∧
     py_eq JNull (service_of unnamed_incident) = false).
Proof.
  apply (record_without_service_never_selected anonymous_env sample_loc
           (bound sample_loc unnamed_incident) unnamed_incident);
    reflexivity.
Defined.

(** Outside the data model the two can be equal: an incident whose
    [service] is [null] selects the records that have no service. *)
Example null_service_selects_anonymous :
  similar (JDict {[ "id" := JStr "inc-2"; "service" := JNull ]})
          anonymous_record = true.
Proof. reflexivity. Qed.

(** ** The historical store that cannot be used *)

(** A store that parses but is not an array of mappings: nothing is
    selected, and one warning is written unless iterating the value
    yields nothing at all, which is so for the empty mapping and the
    empty string. *)
Lemma malformed_selection w inc v :
  fs w historical_path = Exists (Loads v) →
  array_of_mappings v = false →
  selected w inc = [] ∧
  (warnings w inc = [] ∧ (v = JDict ∅ ∨ v = JStr "") ∨
   ∃ e, warnings w inc = [warning e] ∧ v ≠ JDict ∅ ∧ v ≠ JStr "" ∧
        (exn_class_of e = AttributeError ∨ exn_class_of e = TypeError)).
Proof.
  intros Hfs Hv. unfold selected, warnings, selection. rewrite Hfs.
  destruct v as [| | | |s|elems|m]; cbn [array_of_mappings] in Hv.
  1-4: split; [done|]; right; eexists; repeat split; try done; by right.
  - destruct s as [|c s]; [split; [done|]; left; split; [done|by right]|].
    split; [done|]. right. eexists. repeat split; try done. by left.
  - destruct (first_non_mapping_Some _ Hv) as (x & Hx & _).
    unfold scan. rewrite Hx. split; [done|]. right.
    eexists. repeat split; try done. by left.
  - destruct (map_to_list m) as [|[k x] rest] eqn:Hm.
    + apply map_to_list_empty_iff in Hm as ->.
      split; [done|]. left. split; [done|by left].
    + split; [done|]. right. eexists. repeat split; try done; [|by left].
      intros [= ->]. by rewrite map_to_list_empty in Hm.
Qed.

(** C5, as stated, fails for a missing store: the script tests
    [os.path.exists] first and skips the [try] block, so the run
    succeeds with nothing on the error stream. *)
Lemma absent_store_emits_no_warning :
  fs storeless_env historical_path = Absent ∧
  (run storeless_env).1 = Ok tt ∧
  stderr (run storeless_env).2 = [] ∧
  ¬ (∃ e, warning e ∈ stderr (run storeless_env).2).
Proof.
  assert (Herr : stderr (run storeless_env).2 = []) by (vm_compute; done).
  repeat split; try done.
  intros [e He]. rewrite Herr in He. by apply not_elem_of_nil in He.
Qed.

(** C5, amended: when the store file is missing the aggregator
    proceeds silently, and when it exists but cannot be read or is not
    valid JSON it writes one warning to the error stream; in both
    cases it returns a report with an empty historical match set
    ([historical_patterns.count] and [similar_incidents] are 0), which
    is the report of a run on an empty store, and it changes nothing
    else. *)
Theorem unusable_store_gives_empty_selection w l σ inc :
  incident_record inc = true →
  heap σ !! l = Some inc →
  fs w historical_path = Absent ∨
    (∃ e, fs w historical_path = Exists (Raises e)) →
  ∃ report σ',
    aggregate_incident_data w l σ = (Ok report, σ') ∧
    path ["data_sources"; "historical_patterns"; "incidents"] report =
      Some (JList []) ∧
    path ["data_sources"; "historical_patterns"; "count"] report =
      Some (JInt 0) ∧
    path ["aggregation_summary"; "similar_incidents"] report =
      Some (JInt 0) ∧
    (∀ w0, fs w0 historical_path = Exists (Loads (JList [])) →
           aggregate_incident_data w0 l σ = (Ok report, σ)) ∧
    heap σ' = heap σ ∧ stdout σ' = stdout σ ∧
    (fs w historical_path = Absent → stderr σ' = stderr σ) ∧
    (∀ e, fs w historical_path = Exists (Raises e) →
          stderr σ' = (stderr σ ++ [warning e])%list).
Proof.
  intros Hrec Hl Hfs.
  assert (Hsel : selected w inc = []).
  { unfold selected, selection. by destruct Hfs as [->|[e ->]]. }
  exists (report_of inc []), (emit σ (warnings w inc)).
  split; [rewrite <- Hsel; by apply aggregate_run|].
  split; [apply entry_historical_incidents|].
  split; [apply entry_historical_count|].
  split; [apply entry_similar_incidents|].
  split.
  { intros w0 Hw0. rewrite (aggregate_run w0 l σ inc Hrec Hl).
    unfold selected, warnings.
    rewrite (selected_array w0 inc [] Hw0 eq_refl). cbn [fst snd].
    by rewrite emit_nil. }
  split; [done|]. split; [done|].
  unfold warnings, selection.
  split; [intros ->|intros e ->]; cbn [snd emit stderr]; [|done].
  by rewrite app_nil_r.
Qed.

Lemma unusable_store_gives_empty_selection_witness :
  ∃ report σ',
    aggregate_incident_data corrupt_store_env sample_loc sample_state =
      (Ok report, σ') ∧
    path ["data_sources"; "historical_patterns"; "incidents"] report =
      Some (JList []) ∧
    path ["data_sources"; "historical_patterns"; "count"] report =
      Some (JInt 0) ∧
    path ["aggregation_summary"; "similar_incidents"] report =
      Some (JInt 0) ∧
    stderr σ' =
      ["Warning: Could not load historical incidents: Expecting value: line 1 column 1 (char 0)"].
Proof.
  destruct (unusable_store_gives_empty_selection corrupt_store_env sample_loc
              sample_state sample_incident)
    as (report & σ' & Hrun & Hlist & Hcount & Hsim & _ & _ & _ & _ & Herr);
    [reflexivity|reflexivity|right; eexists; reflexivity|].
  exists report, σ'. repeat split; try done.
  by rewrite (Herr _ eq_refl).
Defined.

(** C10, as stated, fails for a store that is the empty mapping:
    iterating it yields nothing, no lookup is attempted, and the run
    succeeds with nothing on the error stream. *)
Lemma empty_mapping_store_emits_no_warning :
  fs empty_mapping_env historical_path = Exists (Loads (JDict ∅)) ∧
  array_of_mappings (JDict ∅) = false ∧
  (run empty_mapping_env).1 = Ok tt ∧
  stderr (run empty_mapping_env).2 = [] ∧
  ¬ (∃ e, warning e ∈ stderr (run empty_mapping_env).2).
Proof.
  assert (Herr : stderr (run empty_mapping_env).2 = [])
    by (vm_compute; done).
  repeat split; try done.
  intros [e He]. rewrite Herr in He. by apply not_elem_of_nil in He.
Qed.

(** C10, amended: when the store file parses as JSON but its value is
    not an array of mappings, the aggregator does not abort and returns
    a report with an empty historical match set, the report of a run on
    an empty store; it writes one warning to the error stream, for the
    [TypeError] or [AttributeError] it caught, except when the value is
    the empty mapping or the empty string, for which it writes
    nothing. *)
Theorem malformed_store_gives_empty_selection w l σ inc v :
  incident_record inc = true →
  heap σ !! l = Some inc →
  fs w historical_path = Exists (Loads v) →
  array_of_mappings v = false →
  ∃ report σ',
    aggregate_incident_data w l σ = (Ok report, σ') ∧
    path ["data_sources"; "historical_patterns"; "incidents"] report =
      Some (JList []) ∧
    path ["data_sources"; "historical_patterns"; "count"] report =
      Some (JInt 0) ∧
    path ["aggregation_summary"; "similar_incidents"] report =
      Some (JInt 0) ∧
    (∀ w0, fs w0 historical_path = Exists (Loads (JList [])) →
           aggregate_incident_data w0 l σ = (Ok report, σ)) ∧
    heap σ' = heap σ ∧ stdout σ' = stdout σ ∧
    (v = JDict ∅ ∨ v = JStr "" → stderr σ' = stderr σ) ∧
    (v ≠ JDict ∅ → v ≠ JStr "" →
     ∃ e, stderr σ' = (stderr σ ++ [warning e])%list ∧
          (exn_class_of e = AttributeError ∨ exn_class_of e = TypeError)).
Proof.
  intros Hrec Hl Hfs Hv.
  destruct (malformed_selection w inc v Hfs Hv) as [Hsel Hwarn].
  exists (report_of inc []), (emit σ (warnings w inc)).
  split; [rewrite <- Hsel; by apply aggregate_run|].
  split; [apply entry_historical_incidents|].
  split; [apply entry_historical_count|].
  split; [apply entry_similar_incidents|].
  split.
  { intros w0 Hw0. rewrite (aggregate_run w0 l σ inc Hrec Hl).
    unfold selected, warnings.
    rewrite (selected_array w0 inc [] Hw0 eq_refl). cbn [fst snd].
    by rewrite emit_nil. }
  split; [done|]. split; [done|].
  destruct Hwarn as [[-> Hempty]|(e & -> & Hne1 & Hne2 & Hclass)];
    cbn [emit stderr].
  - split; [intros _; by rewrite app_nil_r|].
    intros Hne1 Hne2. by destruct Hempty.
  - split; [intros [?|?]; done|]. intros _ _. by exists e.
Qed.

Lemma malformed_store_gives_empty_selection_witness :
  ∃ report σ',
    aggregate_incident_data mapping_store_env sample_loc sample_state =
      (Ok report, σ') ∧
    path ["data_sources"; "historical_patterns"; "incidents"] report =
      Some (JList []) ∧
    path ["data_sources"; "historical_patterns"; "count"] report =
      Some (JInt 0) ∧
    path ["aggregation_summary"; "similar_incidents"] report =
      Some (JInt 0) ∧
    ∃ e, stderr σ' = [warning e] ∧
         (exn_class_of e = AttributeError ∨ exn_class_of e = TypeError).
Proof.
  destruct (malformed_store_gives_empty_selection mapping_store_env
              sample_loc sample_state sample_incident inc1)
    as (report & σ' & Hrun & Hlist & Hcount & Hsim & _ & _ & _ & _ & Herr);
    [reflexivity..|].
  exists report, σ'. do 4 (split; [done|]).
  apply Herr; [|done].
  intros H. apply (f_equal (field "id")) in H. vm_compute in H. discriminate H.
Defined.

(** What the process writes for a store that is a non-empty mapping:
    iterating it yields its keys, and a [str] has no [get]. *)
Example mapping_store_run :
  ∃ report,
    run mapping_store_env =
      (Ok tt,
       State {[ 1%positive := sample_incident ]} [report]
         ["Warning: Could not load historical incidents: 'str' object has no attribute 'get'"]).
Proof. eexists. vm_compute. reflexivity. Qed.

(** ** The primary input *)

(** What [__main__] does up to the call, in terms of the input. *)
Lemma main_reads_primary_input w :
  main w init_state =
    match primary_input w with
    | Absent =>
        (Raise (Exn FileNotFoundError
                  ("[Errno 2] No such file or directory: '" ++
                   default "" (argv w !! 1%nat) ++ "'")), init_state)
    | Exists (Raises e) => (Raise e, init_state)
    | Exists (Loads v) =>
        (let* incident_data := alloc v in
         let* aggregated := aggregate_incident_data w incident_data in
         print_stdout aggregated) init_state
    end.
Proof.
  unfold main, primary_input.
  destruct (argv w) as [|a0 [|p rest]]; cbn [lookup list_lookup default].
  1-2: by destruct (stdin w).
  by destruct (fs w p) as [|[e|v]].
Qed.

(** An input that is not a mapping gets as far as the first lookup of
    the display. *)
Lemma main_not_mapping w v :
  is_dict v = false →
  ∃ σ', (let* incident_data := alloc v in
         let* aggregated := aggregate_incident_data w incident_data in
         print_stdout aggregated) init_state =
        (Raise (attribute_error v "get"), σ') ∧ stdout σ' = [].
Proof.
  intros Hv. unfold bind at 1, alloc. cbn [heap init_state].
  match goal with |- context [aggregate_incident_data w ?l] =>
    set (l0 := l) end.
  match goal with |- context [State ?h ?o ?e] => set (σ1 := State h o e) end.
  destruct (aggregate_not_mapping w l0 σ1 v) as [lines Hrun];
    [apply lookup_insert_eq|done|].
  unfold bind. rewrite Hrun. by eexists.
Qed.

(** C6: when the primary incident input is missing, unreadable, not
    valid JSON, or not a mapping at the top level, the run aborts: the
    exception reaches the caller as it was raised
    ([FileNotFoundError] of [open], the error of the read or of
    [json.load], the [AttributeError] of the first lookup on the
    value), the exit status is not 0, and no report is printed. *)
Theorem bad_primary_input_aborts w :
  primary_input w = Absent ∨
    (∃ e, primary_input w = Exists (Raises e)) ∨
    (∃ v, primary_input w = Exists (Loads v) ∧ is_dict v = false) →
  ∃ e σ',
    run w = (Raise e, σ') ∧
    exit_status (run w).1 ≠ 0%Z ∧
    stdout σ' = [] ∧
    (primary_input w = Absent → exn_class_of e = FileNotFoundError) ∧
    (∀ e0, primary_input w = Exists (Raises e0) → e = e0) ∧
    (∀ v, primary_input w = Exists (Loads v) → e = attribute_error v "get").
Proof.
  intros Hbad. unfold run. rewrite main_reads_primary_input.
  destruct Hbad as [Hin|[[e Hin]|(v & Hin & Hv)]]; rewrite Hin.
  - eexists _, _. by repeat split.
  - exists e, init_state. repeat split; try done. by intros ? [= ->].
  - destruct (main_not_mapping w v Hv) as (σ' & -> & Hout).
    exists (attribute_error v "get"), σ'.
    repeat split; try done. by intros ? [= ->].
Qed.

Lemma bad_primary_input_aborts_witness :
  ∃ e σ',
    run missing_input_env = (Raise e, σ') ∧
    exit_status (run missing_input_env).1 ≠ 0%Z ∧
    stdout σ' = [] ∧
    (primary_input missing_input_env = Absent →
     exn_class_of e = FileNotFoundError) ∧
    (∀ e0, primary_input missing_input_env = Exists (Raises e0) → e = e0) ∧
    (∀ v, primary_input missing_input_env = Exists (Loads v) →
          e = attribute_error v "get").
Proof.
  apply (bad_primary_input_aborts missing_input_env). left. reflexivity.
Defined.

(** The three other kinds of bad input, as runs of the process. *)
Example invalid_json_on_stdin_run :
  let e := Exn JSONDecodeError "Expecting value: line 1 column 1 (char 0)" in
  run (Env ["aggregate_data.py"] no_files (Raises e)) = (Raise e, init_state).
Proof. reflexivity. Qed.

Example unreadable_file_run :
  let e := Exn OSError "[Errno 13] Permission denied: 'incident.json'" in
  run (Env ["aggregate_data.py"; "incident.json"]
           (λ _, Exists (Raises e)) (Loads sample_incident)) =
    (Raise e, init_state).
Proof. reflexivity. Qed.

(** An array as incident, with the sample store on disk: the [try]
    block already fails on it and warns, then the display raises. *)
Example array_input_run :
  run (Env ["aggregate_data.py"] (only_store (Loads (JList sample_store)))
           (Loads (JList [sample_incident]))) =
    (Raise (Exn AttributeError "'list' object has no attribute 'get'"),
     State {[ 1%positive := JList [sample_incident] ]} []
       ["Warning: Could not load historical incidents: 'list' object has no attribute 'get'"]).
Proof. vm_compute. reflexivity. Qed.

(** ** More than three similar records *)

(** Of the four similar records of the store the first three are kept,
    in store order; the record of the incident itself and the record of
    another service are passed over. *)
Example busy_run :
  ∃ report σ',
    run busy_env = (Ok tt, σ') ∧ stdout σ' = [report] ∧ stderr σ' = [] ∧
    path ["data_sources"; "historical_patterns"; "incidents"] report =
      Some (JList [payments "inc-4"; payments "inc-5"; payments "inc-6"]) ∧
    path ["aggregation_summary"; "similar_incidents"] report =
      Some (JInt 3).
Proof. eexists _, _. repeat split; vm_compute; reflexivity. Qed.

(** ** Names are always bound *)

Lemma bind_not_stuck {A B} (c : M A) (k : A → M B) σ :
  pure c → (c σ).1 ≠ Stuck → (∀ a, (k a σ).1 ≠ Stuck) →
  (bind c k σ).1 ≠ Stuck.
Proof.
  intros Hc Hns Hk. unfold bind. specialize (Hc σ).
  destruct (c σ) as [[a| |] σ1]; simpl in *; subst; [apply Hk|done..].
Qed.

Lemma obj_get_not_stuck l k d σ v :
  heap σ !! l = Some v → (obj_get l k d σ).1 ≠ Stuck.
Proof.
  intros Hl. unfold obj_get, bind, deref. rewrite Hl. by destruct v.
Qed.

Lemma py_len_not_stuck v σ : (py_len v σ).1 ≠ Stuck.
Proof. by destruct v. Qed.

Lemma py_slice3_not_stuck v σ : (py_slice3 v σ).1 ≠ Stuck.
Proof. by destruct v. Qed.

(** With its argument bound, [aggregate_incident_data] returns or
    raises. *)
Lemma aggregate_not_stuck w l σ v :
  heap σ !! l = Some v → (aggregate_incident_data w l σ).1 ≠ Stuck.
Proof.
  intros Hl. destruct (is_dict v) eqn:Hv.
  - destruct v; try done.
    unfold aggregate_incident_data, bind at 1.
    rewrite (historical_incidents_run _ _ _ _ Hl).
    match goal with |- context [emit σ ?ws] => set (σ1 := emit σ ws) end.
    assert (Hl1 : heap σ1 !! l = Some (JDict m)) by done.
    apply bind_not_stuck;
      [auto with pure|unfold deref; by rewrite Hl1|intros ?].
    repeat (apply bind_not_stuck;
            [auto with pure
            |first [by eapply obj_get_not_stuck
                   |apply py_len_not_stuck|apply py_slice3_not_stuck]
            |intros ?]).
    done.
  - destruct (aggregate_not_mapping w l σ v Hl Hv) as [lines ->]. done.
Qed.

(** A run of the process returns or raises: [Stuck] is not reachable
    from [__main__]. *)
Lemma run_not_stuck w : (run w).1 ≠ Stuck.
Proof.
  unfold run. rewrite main_reads_primary_input.
  destruct (primary_input w) as [|[e|v]]; [done..|].
  unfold bind at 1, alloc. cbn [heap init_state].
  match goal with |- (bind (aggregate_incident_data w ?l) _ ?σ).1 ≠ _ =>
    pose proof (aggregate_not_stuck w l σ v (lookup_insert_eq _ _ _)) as Hns;
    unfold bind; destruct (aggregate_incident_data w l σ) as [[r| |] σ']
  end; done.
Qed.

(** ** The display on any mapping *)

(** The outcome of [aggregate_incident_data] on a mapping, whatever its
    fields hold: the first [len] or slice that fails raises, after
    lines 20-35 have run. *)
Lemma aggregate_mapping_run w l σ m :
  heap σ !! l = Some (JDict m) →
  aggregate_incident_data w l σ =
    (let logs := default (JList []) (m !! "logs") in
     let metrics := default (JDict ∅) (m !! "metrics") in
     let chosen := selected w (JDict m) in
     if negb (sized logs) then Raise (no_len logs)
     else if negb (sliceable logs) then Raise dict_slice_error
     else if negb (sized metrics) then Raise (no_len metrics)
     else Ok (aggregated (JDict m) (length_of logs) (first3 logs) metrics
                (default (JDict ∅) (m !! "context"))
                (JInt (Z.of_nat (length chosen))) (JList chosen)
                (length_of logs) (length_of metrics)
                (JInt (Z.of_nat (length chosen)))
                (default (JStr "") (m !! "timestamp"))),
     emit σ (warnings w (JDict m))).
Proof.
  intros Hl.
  assert (Hl' : heap (emit σ (warnings w (JDict m))) !! l = Some (JDict m))
    by done.
  unfold aggregate_incident_data, bind at 1.
  rewrite (historical_incidents_run _ _ _ _ Hl).
  unfold bind at 1, deref. rewrite Hl'. cbv zeta.
  remember (default (JList []) (m !! "logs")) as logs eqn:Hlogs.
  remember (default (JDict ∅) (m !! "metrics")) as metrics eqn:Hmetrics.
  destruct logs, metrics;
    repeat (unfold bind at 1;
            first [ rewrite (obj_get_run _ _ _ _ _ Hl');
                    rewrite <- ?Hlogs, <- ?Hmetrics
                  | idtac ];
            cbn [py_len py_slice3 ret raise]);
    reflexivity.
Qed.

Lemma scan_shape inc elems :
  (length (scan inc elems).1 ≤ 3)%nat ∧
  Forall (λ r, is_dict r = true) (scan inc elems).1 ∧
  (scan inc elems).1 `sublist_of` elems.
Proof.
  unfold scan. destruct (first_non_mapping elems) eqn:Hfirst; cbn [fst].
  { split; [simpl; lia|]. split; [constructor|apply sublist_nil_l]. }
  split; [rewrite length_take; lia|].
  split; [|apply take_filter_sublist].
  apply Forall_take, Forall_forall. intros r Hr.
  apply list_elem_of_In, filter_In in Hr as [Hr _].
  destruct (is_dict r) eqn:Hd; [done|].
  unfold first_non_mapping in Hfirst.
  eapply find_none in Hfirst; [|exact Hr]. by rewrite Hd in Hfirst.
Qed.

Lemma selected_shape w inc :
  (length (selected w inc) ≤ 3)%nat ∧
  Forall (λ r, is_dict r = true) (selected w inc).
Proof.
  assert (Hnil : (length (@nil json) ≤ 3)%nat ∧
                 Forall (λ r, is_dict r = true) (@nil json))
    by (split; [simpl; lia|constructor]).
  unfold selected, selection.
  destruct (fs w historical_path) as [|[e|v]]; try exact Hnil.
  destruct v; try exact Hnil;
    match goal with |- context [scan inc ?elems] =>
      destruct (scan_shape inc elems) as (? & ? & _) end; done.
Qed.

Lemma selected_sublist w inc store :
  fs w historical_path = Exists (Loads (JList store)) →
  selected w inc `sublist_of` store.
Proof.
  intros Hfs. unfold selected, selection. rewrite Hfs. apply scan_shape.
Qed.

Lemma warnings_shape w inc :
  (length (warnings w inc) ≤ 1)%nat ∧ Forall is_warning (warnings w inc).
Proof.
  assert (Hnil : (length (@nil string) ≤ 1)%nat ∧ Forall is_warning [])
    by (split; [simpl; lia|constructor]).
  assert (Hone : ∀ e, (length [warning e] ≤ 1)%nat ∧
                      Forall is_warning [warning e]).
  { intros e. split; [simpl; lia|]. repeat constructor. by exists e. }
  unfold warnings, selection.
  destruct (fs w historical_path) as [|[e|v]]; [exact Hnil|apply Hone|].
  destruct v; try apply Hone; unfold scan;
    destruct (first_non_mapping _); first [apply Hone|exact Hnil].
Qed.

(** Lines 20-35 write at most one line, and it is the warning. *)
Lemma historical_incidents_warns w l σ :
  ∃ lines, (historical_incidents w l σ).2 = emit σ lines ∧
           (length lines ≤ 1)%nat ∧ Forall is_warning lines.
Proof.
  assert (Hnil : ∀ r : result (list json),
    ∃ lines, (r, σ).2 = emit σ lines ∧ (length lines ≤ 1)%nat ∧
             Forall is_warning lines).
  { intros r. exists []. rewrite emit_nil.
    split; [done|]. split; [simpl; lia|constructor]. }
  unfold historical_incidents.
  destruct (fs w historical_path) as [|f]; [apply Hnil|].
  unfold try_except.
  match goal with |- context [match ?c σ with _ => _ end] =>
    assert (Hp : pure c) end.
  { repeat (apply pure_bind; [auto with pure|]; intros ?). auto with pure. }
  match type of Hp with pure ?c =>
    specialize (Hp σ); destruct (c σ) as [[sel|e|] σ1] end;
    simpl in Hp; subst σ1; [apply Hnil| |apply Hnil].
  exists [warning e]. split; [done|]. split; [simpl; lia|].
  repeat constructor. by exists e.
Qed.

(** A report is only returned for a name bound to a mapping. *)
Lemma aggregate_Ok_mapping w l σ report σ' :
  aggregate_incident_data w l σ = (Ok report, σ') →
  ∃ m, heap σ !! l = Some (JDict m).
Proof.
  intros Hrun. destruct (heap σ !! l) as [v|] eqn:Hl.
  - destruct (is_dict v) eqn:Hv; [destruct v; try done; by eexists|].
    destruct (aggregate_not_mapping w l σ v Hl Hv) as [lines Hr].
    by rewrite Hr in Hrun.
  - exfalso. unfold aggregate_incident_data in Hrun.
    apply bind_Ok_inv in Hrun as (hist & σ1 & Hh & Hrun).
    destruct (historical_incidents_emits w l σ) as (lines & Hst & _).
    rewrite Hh in Hst. simpl in Hst. subst σ1.
    unfold bind at 1, deref in Hrun. cbn [heap emit] in Hrun.
    by rewrite Hl in Hrun.
Qed.

(** The file system matters only at the path of the store. *)
Lemma aggregate_reads_store_only w1 w2 l σ :
  fs w1 historical_path = fs w2 historical_path →
  aggregate_incident_data w1 l σ = aggregate_incident_data w2 l σ.
Proof.
  intros Hfs. unfold aggregate_incident_data, historical_incidents.
  by rewrite Hfs.
Qed.

(** The state after a call, whatever its outcome. *)
Lemma aggregate_emits w l σ :
  ∃ lines,
    (aggregate_incident_data w l σ).2 = emit σ lines ∧
    (historical_incidents w l σ).2 = emit σ lines ∧
    (length lines ≤ 1)%nat ∧ Forall is_warning lines.
Proof.
  destruct (historical_incidents_warns w l σ) as (lines & Hh & Hlen & Hwarn).
  exists lines. split; [|done].
  unfold aggregate_incident_data, bind at 1.
  destruct (historical_incidents w l σ) as [[hist|e|] σ1];
    simpl in Hh; subst σ1; [|done..].
  match goal with |- (?c _).2 = _ => assert (Hp : pure c) end.
  { repeat (apply pure_bind; [auto with pure|]; intros ?). auto with pure. }
  apply Hp.
Qed.

(** ** Further properties of [aggregate_incident_data] *)

(** X1: whatever the incident is and however the call ends,
    [aggregate_incident_data] changes no object and prints nothing to
    standard output; it appends at most one line to the error stream,
    the warning of the [except] branch, and none when the store file
    does not exist. *)
Theorem aggregate_writes_at_most_one_warning w l σ :
  ∃ lines,
    (aggregate_incident_data w l σ).2 =
      State (heap σ) (stdout σ) (stderr σ ++ lines) ∧
    (length lines ≤ 1)%nat ∧
    Forall is_warning lines ∧
    (fs w historical_path = Absent → lines = []).
Proof.
  destruct (aggregate_emits w l σ) as (lines & Hrun & Hh & Hlen & Hwarn).
  exists lines. split; [done|]. split; [done|]. split; [done|].
  intros Hfs. unfold historical_incidents in Hh. rewrite Hfs in Hh.
  cbn [ret snd] in Hh. apply (f_equal stderr) in Hh. cbn [emit stderr] in Hh.
  rewrite <- (app_nil_r (stderr σ)) in Hh at 1.
  by apply app_inv_head in Hh.
Qed.



(** X3: every report that is returned, for any incident and any
    content of the store file, lists at most three historical
    incidents; [historical_patterns.count] is their number, each of
    them is a mapping similar to the incident, and when the store file
    holds an array they are a subsequence of it. *)
Theorem reports_list_at_most_three_records w l σ report σ' :
  aggregate_incident_data w l σ = (Ok report, σ') →
  ∃ chosen,
    path ["data_sources"; "historical_patterns"; "incidents"] report =
      Some (JList chosen) ∧
    path ["data_sources"; "historical_patterns"; "count"] report =
      Some (JInt (Z.of_nat (length chosen))) ∧
    (length chosen ≤ 3)%nat ∧
    Forall (λ r, is_dict r = true) chosen ∧
    (∀ inc, heap σ !! l = Some inc →
            Forall (λ r, similar inc r = true) chosen) ∧
    (∀ store, fs w historical_path = Exists (Loads (JList store)) →
              chosen `sublist_of` store).
Proof.
  intros Hrun.
  destruct (aggregate_Ok_mapping _ _ _ _ _ Hrun) as [m Hl].
  apply aggregate_Ok_inv in Hrun
    as (hist & cur & lc & ls & me & cx & mp & ts & Hh & ->).
  rewrite (historical_incidents_run _ _ _ _ Hl) in Hh.
  injection Hh as <- _.
  destruct (selected_shape w (JDict m)) as [Hlen Hdict].
  exists (selected w (JDict m)).
  split; [done|]. split; [done|]. split; [done|]. split; [done|].
  split; [|intros store Hfs; by apply selected_sublist].
  intros inc Hinc. rewrite Hl in Hinc. injection Hinc as <-.
  apply selected_similar.
Qed.

Lemma reports_list_at_most_three_records_witness :
  ∃ chosen,
    path ["data_sources"; "historical_patterns"; "incidents"]
         (report_of sample_incident [inc1]) = Some (JList chosen) ∧
    path ["data_sources"; "historical_patterns"; "count"]
         (report_of sample_incident [inc1]) =
      Some (JInt (Z.of_nat (length chosen))) ∧
    (length chosen ≤ 3)%nat ∧
    Forall (λ r, is_dict r = true) chosen ∧
    (∀ inc, heap sample_state !! sample_loc = Some inc →
            Forall (λ r, similar inc r = true) chosen) ∧
    (∀ store, fs sample_env historical_path = Exists (Loads (JList store)) →
              chosen `sublist_of` store).
Proof.
  apply (reports_list_at_most_three_records sample_env sample_loc
           sample_state (report_of sample_incident [inc1]) sample_state).
  reflexivity.
Defined.

(** X4: in every report that is returned, [total_sources] is the
    number of entries of [data_sources]; these are [logs], [metrics],
    [context] and [historical_patterns], and each of them carries a
    [source] label. *)
Theorem total_sources_counts_data_sources w l σ report σ' :
  aggregate_incident_data w l σ = (Ok report, σ') →
  ∃ sources : gmap string json,
    field "data_sources" report = Some (JDict sources) ∧
    path ["aggregation_summary"; "total_sources"] report =
      Some (JInt (Z.of_nat (size sources))) ∧
    dom sources =
      ({[ "logs"; "metrics"; "context"; "historical_patterns" ]}
         : gset string) ∧
    map_Forall (λ _ entry, ∃ label, field "source" entry = Some (JStr label))
               sources.
Proof.
  intros (hist & cur & lc & ls & me & cx & mp & ts & _ & ->)%aggregate_Ok_inv.
  eexists. split; [reflexivity|]. split; [reflexivity|].
  split.
  - rewrite !dom_insert_L. set_solver.
  - repeat (apply map_Forall_insert_2; [by eexists|]).
    apply map_Forall_empty.
Qed.

Lemma total_sources_counts_data_sources_witness :
  ∃ sources : gmap string json,
    field "data_sources" (report_of sample_incident [inc1]) =
      Some (JDict sources) ∧
    path ["aggregation_summary"; "total_sources"]
         (report_of sample_incident [inc1]) =
      Some (JInt (Z.of_nat (size sources))) ∧
    dom sources =
      ({[ "logs"; "metrics"; "context"; "historical_patterns" ]}
         : gset string) ∧
    map_Forall (λ _ entry, ∃ label, field "source" entry = Some (JStr label))
               sources.
Proof.
  apply (total_sources_counts_data_sources sample_env sample_loc
           sample_state (report_of sample_incident [inc1]) sample_state).
  reflexivity.
Defined.

Lemma similar_reads_id_and_service (m1 m2 : gmap string json) r :
  m1 !! "id" = m2 !! "id" → m1 !! "service" = m2 !! "service" →
  similar (JDict m1) r = similar (JDict m2) r.
Proof.
  intros Hid Hservice. unfold similar, service_of, record_id.
  cbn [field]. by rewrite Hid, Hservice.
Qed.

Lemma selection_reads_id_and_service w (m1 m2 : gmap string json) :
  m1 !! "id" = m2 !! "id" → m1 !! "service" = m2 !! "service" →
  selection w (JDict m1) = selection w (JDict m2).
Proof.
  intros Hid Hservice.
  assert (Hscan : ∀ elems, scan (JDict m1) elems = scan (JDict m2) elems).
  { intros elems. unfold scan. destruct (first_non_mapping elems); [done|].
    f_equal. f_equal. apply filter_ext. intros r.
    by apply similar_reads_id_and_service. }
  unfold selection. destruct (fs w historical_path) as [|[e|v]]; try done.
  destruct v; try done; apply Hscan.
Qed.

(** X5: the historical matches, and the warning, depend on the
    incident only through its [id] and [service]: two mappings that
    agree on these two keys get the same result from lines 20-35,
    whatever else they hold. *)
Theorem matches_depend_on_id_and_service w l1 l2 σ1 σ2
    (m1 m2 : gmap string json) :
  heap σ1 !! l1 = Some (JDict m1) →
  heap σ2 !! l2 = Some (JDict m2) →
  m1 !! "id" = m2 !! "id" →
  m1 !! "service" = m2 !! "service" →
  ∃ chosen lines,
    historical_incidents w l1 σ1 =
      (Ok chosen, State (heap σ1) (stdout σ1) (stderr σ1 ++ lines)) ∧
    historical_incidents w l2 σ2 =
      (Ok chosen, State (heap σ2) (stdout σ2) (stderr σ2 ++ lines)).
Proof.
  intros Hl1 Hl2 Hid Hservice.
  exists (selected w (JDict m1)), (warnings w (JDict m1)).
  split; [by apply historical_incidents_run|].
  rewrite (historical_incidents_run _ _ _ _ Hl2). unfold selected, warnings.
  by rewrite (selection_reads_id_and_service w m1 m2).
Qed.

Lemma matches_depend_on_id_and_service_witness :
  ∃ chosen lines,
    historical_incidents sample_env sample_loc sample_state =
      (Ok chosen, State (heap sample_state) (stdout sample_state)
                    (stderr sample_state ++ lines)) ∧
    historical_incidents sample_env 2%positive (bound 2%positive inc2) =
      (Ok chosen, State (heap (bound 2%positive inc2))
                    (stdout (bound 2%positive inc2))
                    (stderr (bound 2%positive inc2) ++ lines)).
Proof.
  eapply (matches_depend_on_id_and_service sample_env sample_loc 2%positive
            sample_state (bound 2%positive inc2)); reflexivity.
Defined.

(** X6: records appended to a store of mappings never change the
    matches already selected: the selection from the longer store
    starts with the selection from the shorter one, and once three
    matches are found the report is the same. *)
Theorem appended_records_keep_selection w1 w2 l σ inc store more :
  incident_record inc = true →
  heap σ !! l = Some inc →
  fs w1 historical_path = Exists (Loads (JList store)) →
  fs w2 historical_path = Exists (Loads (JList (store ++ more))) →
  forallb is_dict (store ++ more) = true →
  ∃ report1 report2 chosen1 chosen2,
    aggregate_incident_data w1 l σ = (Ok report1, σ) ∧
    aggregate_incident_data w2 l σ = (Ok report2, σ) ∧
    path ["data_sources"; "historical_patterns"; "incidents"] report1 =
      Some (JList chosen1) ∧
    path ["data_sources"; "historical_patterns"; "incidents"] report2 =
      Some (JList chosen2) ∧
    chosen1 `prefix_of` chosen2 ∧
    (length chosen1 = 3%nat → report2 = report1).
Proof.
  intros Hrec Hl Hfs1 Hfs2 Hall.
  pose proof Hall as Hstore. rewrite forallb_app in Hstore.
  apply andb_prop in Hstore as [Hstore _].
  pose proof (aggregate_run w1 l σ inc Hrec Hl) as Hrun1.
  pose proof (aggregate_run w2 l σ inc Hrec Hl) as Hrun2.
  unfold selected, warnings in Hrun1, Hrun2.
  rewrite (selected_array _ _ _ Hfs1 Hstore) in Hrun1.
  rewrite (selected_array _ _ _ Hfs2 Hall) in Hrun2.
  cbn [fst snd] in Hrun1, Hrun2. rewrite emit_nil in Hrun1, Hrun2.
  rewrite List.filter_app, take_app in Hrun2.
  eexists _, _, _, _. split; [exact Hrun1|]. split; [exact Hrun2|].
  split; [apply entry_historical_incidents|].
  split; [apply entry_historical_incidents|].
  split; [by apply prefix_app_r|].
  rewrite length_take. intros Hthree.
  replace (3 - length (List.filter (similar inc) store))%nat with 0%nat by lia.
  by rewrite take_0, app_nil_r.
Qed.

Lemma appended_records_keep_selection_witness :
  ∃ report1 report2 chosen1 chosen2,
    aggregate_incident_data sample_env sample_loc sample_state =
      (Ok report1, sample_state) ∧
    aggregate_incident_data
      (Env [] (only_store (Loads (JList (sample_store ++ [payments "inc-4"]))))
           (Loads JNull)) sample_loc sample_state = (Ok report2, sample_state) ∧
    path ["data_sources"; "historical_patterns"; "incidents"] report1 =
      Some (JList chosen1) ∧
    path ["data_sources"; "historical_patterns"; "incidents"] report2 =
      Some (JList chosen2) ∧
    chosen1 `prefix_of` chosen2 ∧
    (length chosen1 = 3%nat → report2 = report1).
Proof.
  apply (appended_records_keep_selection sample_env _ sample_loc sample_state
           sample_incident sample_store [payments "inc-4"]); reflexivity.
Defined.

(** X7: on a mapping that is accepted, no field is validated: [logs]
    is measured and sliced as the list or the string it is (a string is
    counted and cut by character), [metrics] is measured as the list,
    string or mapping it is, and [metrics], [context] and [timestamp]
    are copied into the report whatever type of value they hold. *)
Theorem fields_are_passed_through_unvalidated w l σ (m : gmap string json) :
  heap σ !! l = Some (JDict m) →
  accepted (JDict m) = true →
  ∃ report σ',
    aggregate_incident_data w l σ = (Ok report, σ') ∧
    path ["data_sources"; "logs"; "count"] report =
      Some (length_of (default (JList []) (m !! "logs"))) ∧
    path ["aggregation_summary"; "log_entries"] report =
      Some (length_of (default (JList []) (m !! "logs"))) ∧
    path ["data_sources"; "logs"; "sample"] report =
      Some (first3 (default (JList []) (m !! "logs"))) ∧
    path ["data_sources"; "metrics"; "data"] report =
      Some (default (JDict ∅) (m !! "metrics")) ∧
    path ["aggregation_summary"; "metric_points"] report =
      Some (length_of (default (JDict ∅) (m !! "metrics"))) ∧
    path ["data_sources"; "context"; "data"] report =
      Some (default (JDict ∅) (m !! "context")) ∧
    path ["aggregation_summary"; "aggregation_timestamp"] report =
      Some (default (JStr "") (m !! "timestamp")).
Proof.
  intros Hl [Hlogs Hmetrics]%andb_prop.
  assert (Hsized : sized (default (JList []) (m !! "logs")) = true)
    by (by destruct (default (JList []) (m !! "logs"))).
  eexists _, _. split.
  { rewrite (aggregate_mapping_run w l σ m Hl). cbv zeta.
    rewrite Hsized, Hlogs, Hmetrics. reflexivity. }
  by repeat split.
Qed.

Lemma fields_are_passed_through_unvalidated_witness :
  ∃ report σ',
    aggregate_incident_data sample_env sample_loc
      (bound sample_loc text_logs_incident) = (Ok report, σ') ∧
    path ["data_sources"; "logs"; "count"] report = Some (JInt 7) ∧
    path ["aggregation_summary"; "log_entries"] report = Some (JInt 7) ∧
    path ["data_sources"; "logs"; "sample"] report = Some (JStr "tim") ∧
    path ["data_sources"; "metrics"; "data"] report = Some (JDict ∅) ∧
    path ["aggregation_summary"; "metric_points"] report = Some (JInt 0) ∧
    path ["data_sources"; "context"; "data"] report = Some (JDict ∅) ∧
    path ["aggregation_summary"; "aggregation_timestamp"] report =
      Some (JStr "").
Proof.
  exact (fields_are_passed_through_unvalidated sample_env sample_loc
           (bound sample_loc text_logs_incident)
           {[ "id" := JStr "inc-2"; "service" := JStr "payments";
              "logs" := JStr "timeout" ]} eq_refl eq_refl).
Defined.

(** ** Further properties of a run *)

(** What [__main__] does once the incident is loaded. *)
Lemma run_loaded_input w v :
  primary_input w = Exists (Loads v) →
  ∃ l, let σ := State {[ l := v ]} [] [] in
    heap σ !! l = Some v ∧
    run w =
      match aggregate_incident_data w l σ with
      | (Ok report, σ') =>
          (Ok tt, State (heap σ') (stdout σ' ++ [report]) (stderr σ'))
      | (Raise e, σ') => (Raise e, σ')
      | (Stuck, σ') => (Stuck, σ')
      end.
Proof.
  intros Hin. unfold run. rewrite main_reads_primary_input, Hin.
  exists (fresh (dom (heap init_state))). cbv zeta.
  split; [apply lookup_insert_eq|].
  unfold bind at 1, alloc. cbn [heap stdout stderr init_state].
  unfold bind, print_stdout.
  by destruct (aggregate_incident_data _ _ _) as [[report|e|] σ'].
Qed.





(** The run on a number as [logs]: the store is read first, then [len]
    fails. *)
Example numeric_logs_run :
  run numeric_logs_env =
    (Raise (Exn TypeError "object of type 'int' has no len()"),
     State {[ 1%positive := numeric_logs_incident ]} [] []).
Proof. vm_compute. reflexivity. Qed.

(** X10: every run ends in one of two ways: it prints exactly one
    report and exits with status 0, or it prints nothing and exits with
    status 1 on an uncaught exception.  In both cases the script writes
    at most one line to the error stream, the warning about the
    store. *)
Theorem run_prints_one_report_or_nothing w :
  ∃ σ',
    (run w).2 = σ' ∧
    (length (stderr σ') ≤ 1)%nat ∧
    Forall is_warning (stderr σ') ∧
    ((∃ report, (run w).1 = Ok tt ∧ stdout σ' = [report] ∧
                exit_status (run w).1 = 0%Z) ∨
     (∃ e, (run w).1 = Raise e ∧ stdout σ' = [] ∧
           exit_status (run w).1 = 1%Z)).
Proof.
  eexists. split; [reflexivity|].
  destruct (primary_input w) as [|[e|v]] eqn:Hin.
  1-2: unfold run; rewrite main_reads_primary_input, Hin;
    (split; [simpl; lia|]); (split; [constructor|]);
    right; by eexists.
  destruct (run_loaded_input w v Hin) as (l & Hl & Hrun). cbv zeta in Hrun.
  pose proof (aggregate_not_stuck w l _ v Hl) as Hns.
  destruct (aggregate_emits w l (State {[ l := v ]} [] []))
    as (lines & Hst & _ & Hlen & Hwarn).
  rewrite Hrun.
  destruct (aggregate_incident_data w l _) as [[report|e|] σa];
    [| |done]; cbn [snd] in Hst; subst σa; cbn [fst snd emit stderr stdout];
    (split; [done|]); (split; [done|]); [left|right]; by eexists.
Qed.

(** X11: a run depends on the process environment only through the
    incident it reads and the store file: the same incident given in a
    file or on standard input, with the same store, gives the same
    output, streams and exit status; further arguments and other files
    are ignored. *)
Theorem run_depends_on_input_and_store w1 w2 :
  primary_input w1 = primary_input w2 →
  primary_input w1 ≠ Absent →
  fs w1 historical_path = fs w2 historical_path →
  run w1 = run w2.
Proof.
  intros Hin Hpresent Hfs. unfold run.
  rewrite !main_reads_primary_input, <- Hin.
  destruct (primary_input w1) as [|[e|v]]; [done|done|].
  unfold bind at 1 3. destruct (alloc v init_state) as [[l| |] σ]; [|done..].
  unfold bind. by rewrite (aggregate_reads_store_only w1 w2 l σ Hfs).
Qed.

Lemma run_depends_on_input_and_store_witness : run sample_env = run file_env.
Proof.
  apply (run_depends_on_input_and_store sample_env file_env);
    [reflexivity|discriminate|reflexivity].
Defined.
